(** * MathGuru: the topic-graph unlock/capture engine

    A shallow embedding of the logic of [src/lib/topics.ts],
    [src/lib/progress-service.ts] and of the state, effects and handlers of
    [src/pages/Index.tsx], followed by the properties proved about it.

    Conventions of the embedding:
    - a JS string is a [string] of ASCII characters; [toLowerCase] and the
      whitespace class are the restrictions of the JS ones to ASCII;
    - a JS array of strings is a [list string]; a [Set<string>] is a list
      without duplicates kept in insertion order (the order of [Array.from]);
    - a [Record<string, number>] is a [gmap string JS.Value] of own
      properties; a read goes through the prototype chain ([JS.getProp]);
      numbers in it are integer-valued doubles (the quiz yields
      [Math.round]ed scores);
    - [completionRate] is the exact rational the JS expression denotes;
    - [localStorage] is a reliable cell holding the record stored under
      [PROGRESS_STORAGE_KEY], or nothing; [Date.now()] is a parameter. *)

From Stdlib Require Import String Ascii List ZArith QArith Qround Bool Lia.
From stdpp Require Import base gmap strings.
Import ListNotations.

Local Open Scope string_scope.
Local Open Scope list_scope.

(** ** JavaScript primitives used by the sources *)

Module JS.

(** [String.prototype.toLowerCase] on ASCII letters. *)
Definition lower_ascii (c : ascii) : ascii :=
  let n := nat_of_ascii c in
  if (65 <=? n)%nat && (n <=? 90)%nat then ascii_of_nat (n + 32) else c.

Fixpoint toLowerCase (s : string) : string :=
  match s with
  | EmptyString => EmptyString
  | String c s' => String (lower_ascii c) (toLowerCase s')
  end.

(** The ASCII members of the class [\s], which is also what [trim] strips:
    tab, line feed, vertical tab, form feed, carriage return, space. *)
Definition isSpace (c : ascii) : bool :=
  let n := nat_of_ascii c in
  ((9 <=? n)%nat && (n <=? 13)%nat) || (n =? 32)%nat.

Fixpoint trimStart (s : string) : string :=
  match s with
  | EmptyString => EmptyString
  | String c s' => if isSpace c then trimStart s' else s
  end.

Fixpoint trimEnd (s : string) : string :=
  match s with
  | EmptyString => EmptyString
  | String c s' =>
      match trimEnd s' with
      | EmptyString => if isSpace c then EmptyString else String c EmptyString
      | r => String c r
      end
  end.

Definition trim (s : string) : string := trimEnd (trimStart s).

(** [s.startsWith(k)] and [s.includes(k)] on strings. *)
Fixpoint startsWith (s k : string) : bool :=
  match k, s with
  | EmptyString, _ => true
  | String _ _, EmptyString => false
  | String a k', String b s' => Ascii.eqb a b && startsWith s' k'
  end.

Fixpoint includes (s k : string) : bool :=
  startsWith s k ||
  match s with
  | EmptyString => false
  | String _ s' => includes s' k
  end.

(** [s.split(/\s+/)]: the pieces between maximal runs of whitespace.
    [cur] is the piece being read, [inSep] tells that the previous
    character belonged to a separator. *)
Fixpoint splitWsFrom (s cur : string) (inSep : bool) : list string :=
  match s with
  | EmptyString => [cur]
  | String c s' =>
      if isSpace c
      then if inSep then splitWsFrom s' EmptyString true
           else cur :: splitWsFrom s' EmptyString true
      else splitWsFrom s' (cur +:+ String c EmptyString) false
  end.

Definition splitWs (s : string) : list string := splitWsFrom s EmptyString false.

(** [s.split(' ')]: the pieces between single space characters. *)
Fixpoint splitSpaceFrom (s cur : string) : list string :=
  match s with
  | EmptyString => [cur]
  | String c s' =>
      if Ascii.eqb c " "%char
      then cur :: splitSpaceFrom s' EmptyString
      else splitSpaceFrom s' (cur +:+ String c EmptyString)
  end.

Definition splitSpace (s : string) : list string := splitSpaceFrom s EmptyString.

(** [arr.includes(x)] on an array of strings. *)
Definition arrIncludes (arr : list string) (x : string) : bool :=
  existsb (String.eqb x) arr.

(** [set.add(x)] on a [Set<string>] in insertion order. *)
Definition setAdd (set : list string) (x : string) : list string :=
  if arrIncludes set x then set else set ++ [x].

(** [[...new Set(arr)]]: the first occurrences, in order. *)
Definition dedupe (arr : list string) : list string :=
  fold_left setAdd arr [].

(** The names every plain object inherits from [Object.prototype]. *)
Definition objectPrototypeMembers : list string :=
  ["constructor"; "hasOwnProperty"; "isPrototypeOf"; "propertyIsEnumerable";
   "toLocaleString"; "toString"; "valueOf"; "__proto__";
   "__defineGetter__"; "__defineSetter__"; "__lookupGetter__"; "__lookupSetter__"].

(** What a stored record holds under a key of [quizAttempts] or
    [quizScores]: a number, [null], or the text of the inherited member
    [member] followed by [ones] characters [1] (what [member + 1] and then
    [text + 1] evaluate to). *)
Inductive Value :=
| Num (n : Z)
| Text (member : string) (ones : nat)
| Null.

(** The result of the read [obj[key]] on a plain object: its own property,
    else the member inherited from [Object.prototype], else [undefined]. *)
Inductive Read :=
| Own (v : Value)
| Inherited (member : string)
| Undefined.

Definition getProp (obj : gmap string Value) (key : string) : Read :=
  match obj !! key with
  | Some v => Own v
  | None => if arrIncludes objectPrototypeMembers key then Inherited key else Undefined
  end.

(** The value of [x || 0]: a number, a non-empty string, or an inherited
    function or object. *)
Inductive Operand :=
| Number (n : Z)
| Str (member : string) (ones : nat)
| Member (member : string).

(** [x || 0]: [undefined], [null] and [0] are falsy; a non-empty string, a
    function and an object are truthy. *)
Definition orZero (x : Read) : Operand :=
  match x with
  | Own (Num n) => if (n =? 0)%Z then Number 0 else Number n
  | Own (Text member ones) => Str member ones
  | Own Null => Number 0
  | Inherited member => Member member
  | Undefined => Number 0
  end.

(** [n + 1] on an integer-valued double: exact from -2^53 up to 2^53 - 1;
    beyond, the sum is rounded to the nearest double, ties to the even
    mantissa. *)
Definition plusOne (n : Z) : Z :=
  if ((-9007199254740992 <=? n) && (n <? 9007199254740992))%Z then (n + 1)%Z
  else if (Z.abs n <? 18014398509481984)%Z
       then if Z.even (n / 2) then n else (n + 2)%Z
       else n.

(** [x + 1]: addition on a number, concatenation on anything else (a
    function or object is first turned into its text). *)
Definition addOne (x : Operand) : Value :=
  match x with
  | Number n => Num (plusOne n)
  | Str member ones => Text member (S ones)
  | Member member => Text member 1
  end.

(** [Math.max(x, score)]; [None] is [NaN], the result when [x] is not a
    number (none of the texts above reads as one). *)
Definition mathMax (x : Operand) (score : Z) : option Z :=
  match x with
  | Number n => Some (Z.max n score)
  | _ => None
  end.

(** A number as [JSON.stringify] writes it and [JSON.parse] reads it back:
    [NaN] becomes [null]. *)
Definition jsonNumber (x : option Z) : Value :=
  match x with
  | Some n => Num n
  | None => Null
  end.

(** [Math.round(x)]: the nearest integer, halves rounded up. The argument
    is the exact rational the JS expression denotes. *)
Definition mathRound (x : Q) : Z := Qfloor (x + (1 # 2)).

End JS.

(** ** [src/lib/topics.ts] *)

Module Topics.

Inductive Difficulty := beginner | intermediate | advanced.

(** [Topic] of [types.ts]; the display-only fields [name], [description],
    [position] and [color] are left out. *)
Record Topic := mkTopic {
  id : string;
  difficulty : Difficulty;
  connectedTopics : list string;
  captured : bool;
  unlocked : bool
}.

Definition GALAXY_TOPICS : list Topic :=
  [ mkTopic "algebra-overview" beginner
    ["linear-equations"; "systems-of-equations"; "polynomials"] false false
  ; mkTopic "linear-equations" beginner
    ["algebra-overview"; "systems-of-equations"] false false
  ; mkTopic "systems-of-equations" intermediate
    ["linear-equations"; "algebra-overview"; "matrices"] false false
  ; mkTopic "polynomials" intermediate
    ["algebra-overview"; "rational-functions"] false false
  ; mkTopic "matrices" advanced
    ["systems-of-equations"] false false
  ; mkTopic "rational-functions" advanced
    ["polynomials"] false false
  ; mkTopic "quadratic-equations" beginner
    ["quadratic-formula"; "parabola-graphs"; "factorization"; "algebra-overview"] false true
  ; mkTopic "quadratic-formula" beginner
    ["quadratic-equations"; "discriminant"; "complex-roots"] false false
  ; mkTopic "parabola-graphs" beginner
    ["quadratic-equations"; "vertex-form"; "real-world-applications"] false false
  ; mkTopic "vertex-form" intermediate
    ["parabola-graphs"; "completing-square"] false false
  ; mkTopic "completing-square" intermediate
    ["vertex-form"; "quadratic-formula"; "quadratic-equations"] false false
  ; mkTopic "discriminant" intermediate
    ["quadratic-formula"; "complex-roots"] false false
  ; mkTopic "factorization" beginner
    ["quadratic-equations"; "quadratic-formula"] false false
  ; mkTopic "real-world-applications" advanced
    ["parabola-graphs"; "vertex-form"] false false
  ; mkTopic "complex-roots" advanced
    ["discriminant"; "quadratic-formula"] false false
  ; mkTopic "geometry-basics" beginner
    ["triangles"; "quadrilaterals"; "circles"; "area-volume"] false false
  ; mkTopic "triangles" beginner
    ["geometry-basics"; "trigonometric-functions"] false false
  ; mkTopic "quadrilaterals" beginner
    ["geometry-basics"] false false
  ; mkTopic "circles" intermediate
    ["geometry-basics"; "area-volume"] false false
  ; mkTopic "area-volume" intermediate
    ["geometry-basics"; "circles"; "coordinate-geometry"] false false
  ; mkTopic "coordinate-geometry" advanced
    ["area-volume"] false false
  ; mkTopic "trigonometric-functions" intermediate
    ["triangles"; "trig-identities"; "trig-equations"; "inverse-trig"] false false
  ; mkTopic "trig-identities" intermediate
    ["trigonometric-functions"; "trig-equations"] false false
  ; mkTopic "trig-equations" advanced
    ["trig-identities"; "trigonometric-functions"] false false
  ; mkTopic "inverse-trig" advanced
    ["trigonometric-functions"] false false
  ; mkTopic "limits" intermediate
    ["derivatives"; "calculus-overview"; "functions-analysis"] false false
  ; mkTopic "functions-analysis" beginner
    ["limits"; "series-sequences"] false false
  ; mkTopic "derivatives" intermediate
    ["limits"; "integrals"; "applications-derivatives"] false false
  ; mkTopic "integrals" advanced
    ["derivatives"; "applications-integrals"] false false
  ; mkTopic "applications-derivatives" advanced
    ["derivatives"] false false
  ; mkTopic "applications-integrals" advanced
    ["integrals"] false false
  ; mkTopic "basic-statistics" beginner
    ["probability"; "data-analysis"; "regression"] false false
  ; mkTopic "probability" beginner
    ["basic-statistics"; "statistics-inference"] false false
  ; mkTopic "data-analysis" intermediate
    ["basic-statistics"; "regression"] false false
  ; mkTopic "regression" intermediate
    ["data-analysis"; "basic-statistics"] false false
  ; mkTopic "statistics-inference" advanced
    ["probability"] false false
  ; mkTopic "future-topic-1" beginner
    ["algebra-overview"] false false
  ; mkTopic "future-topic-2" beginner
    ["linear-equations"] false false
  ; mkTopic "future-topic-3" intermediate
    ["systems-of-equations"] false false
  ; mkTopic "future-topic-4" intermediate
    ["matrices"] false false
  ; mkTopic "future-topic-5" advanced
    ["limits"] false false
  ; mkTopic "future-topic-6" advanced
    ["derivatives"] false false
  ; mkTopic "future-topic-7" beginner
    ["integrals"] false false
  ; mkTopic "future-topic-8" beginner
    ["basic-statistics"] false false
  ; mkTopic "future-topic-9" intermediate
    ["probability"] false false
  ; mkTopic "future-topic-10" intermediate
    ["regression"] false false
  ; mkTopic "future-topic-11" advanced
    ["future-topic-1"] false false
  ; mkTopic "future-topic-12" advanced
    ["future-topic-6"] false false
  ; mkTopic "future-topic-13" beginner
    ["future-topic-9"] false false
  ; mkTopic "future-topic-14" beginner
    ["trigonometric-functions"] false false
  ; mkTopic "future-topic-15" intermediate
    ["parabola-graphs"] false false
  ; mkTopic "future-topic-16" advanced
    ["future-topic-11"] false false
  ; mkTopic "future-topic-17" beginner
    ["future-topic-1"] false false
  ; mkTopic "future-topic-18" intermediate
    ["future-topic-3"] false false
  ; mkTopic "future-topic-19" advanced
    ["future-topic-4"] false false
  ; mkTopic "future-topic-20" beginner
    ["future-topic-1"] false false
  ; mkTopic "future-topic-21" advanced
    ["future-topic-14"] false false
  ; mkTopic "future-topic-22" intermediate
    ["future-topic-15"] false false
  ; mkTopic "future-topic-23" beginner
    ["trigonometric-functions"] false false
  ; mkTopic "future-topic-24" advanced
    ["future-topic-14"] false false
  ; mkTopic "future-topic-25" intermediate
    ["future-topic-12"] false false
  ; mkTopic "future-topic-26" beginner
    ["future-topic-5"] false false
  ; mkTopic "future-topic-27" advanced
    ["future-topic-7"] false false
  ; mkTopic "future-topic-28" intermediate
    ["future-topic-13"] false false
  ; mkTopic "future-topic-29" advanced
    ["future-topic-10"] false false
  ; mkTopic "future-topic-30" beginner
    ["future-topic-8"] false false
  ; mkTopic "future-topic-31" advanced
    ["future-topic-16"] false false
  ; mkTopic "future-topic-32" intermediate
    ["future-topic-17"] false false
  ; mkTopic "future-topic-33" advanced
    ["future-topic-18"] false false
  ; mkTopic "future-topic-34" beginner
    ["future-topic-19"] false false
  ; mkTopic "future-topic-35" intermediate
    ["future-topic-20"] false false
  ; mkTopic "future-topic-36" advanced
    ["future-topic-21"] false false
  ; mkTopic "future-topic-37" intermediate
    ["future-topic-22"] false false
  ; mkTopic "future-topic-38" beginner
    ["future-topic-23"] false false
  ; mkTopic "future-topic-39" advanced
    ["future-topic-24"] false false
  ; mkTopic "future-topic-40" intermediate
    ["future-topic-25"] false false
  ; mkTopic "future-topic-41" beginner
    ["future-topic-26"] false false
  ; mkTopic "future-topic-42" advanced
    ["future-topic-27"] false false
  ; mkTopic "future-topic-43" intermediate
    ["future-topic-28"] false false
  ; mkTopic "future-topic-44" advanced
    ["future-topic-29"] false false
  ; mkTopic "future-topic-45" beginner
    ["future-topic-30"] false false
  ].

Definition getTopicById (id0 : string) : option Topic :=
  find (fun topic => String.eqb (id topic) id0) GALAXY_TOPICS.

Definition getConnectedTopics (topicId : string) : list Topic :=
  match getTopicById topicId with
  | None => []
  | Some topic => omap getTopicById (connectedTopics topic)
  end.

Definition shouldUnlockTopic (topicId : string) (capturedTopics : list string) : bool :=
  match getTopicById topicId with
  | None => false
  | Some topic =>
      if unlocked topic then true
      else existsb (fun connectedId => JS.arrIncludes capturedTopics connectedId)
                   (connectedTopics topic)
  end.

Definition KEYWORD_TOPIC_MAP : list (string * list string) :=
  [ ("algebra", ["algebra-overview"])
  ; ("linear equation", ["linear-equations"])
  ; ("system of equations", ["systems-of-equations"; "matrices"])
  ; ("matrix", ["matrices"; "systems-of-equations"])
  ; ("polynomial", ["polynomials"; "rational-functions"])
  ; ("rational function", ["rational-functions"])
  ; ("vector", ["matrices"])
  ; ("quadratic", ["quadratic-equations"])
  ; ("quadratic formula", ["quadratic-formula"; "quadratic-equations"])
  ; ("quadratic equation", ["quadratic-equations"])
  ; ("parabola", ["parabola-graphs"; "quadratic-equations"])
  ; ("vertex form", ["vertex-form"; "parabola-graphs"])
  ; ("vertex", ["vertex-form"; "parabola-graphs"])
  ; ("completing square", ["completing-square"; "vertex-form"])
  ; ("completing the square", ["completing-square"; "vertex-form"])
  ; ("discriminant", ["discriminant"; "quadratic-formula"])
  ; ("factorization", ["factorization"; "quadratic-equations"])
  ; ("factoring", ["factorization"; "quadratic-equations"])
  ; ("complex root", ["complex-roots"; "discriminant"])
  ; ("imaginary root", ["complex-roots"; "discriminant"])
  ; ("real world", ["real-world-applications"; "parabola-graphs"])
  ; ("geometry", ["geometry-basics"])
  ; ("triangle", ["triangles"; "geometry-basics"])
  ; ("pythagorean", ["triangles"; "geometry-basics"])
  ; ("pythagorean theorem", ["triangles"; "geometry-basics"])
  ; ("quadrilateral", ["quadrilaterals"; "geometry-basics"])
  ; ("circle", ["circles"; "area-volume"])
  ; ("area", ["area-volume"; "geometry-basics"])
  ; ("volume", ["area-volume"; "geometry-basics"])
  ; ("coordinate geometry", ["coordinate-geometry"; "area-volume"])
  ; ("trigonometry", ["trigonometric-functions"; "triangles"])
  ; ("trig", ["trigonometric-functions"; "triangles"])
  ; ("sine", ["trigonometric-functions"; "triangles"])
  ; ("cosine", ["trigonometric-functions"; "triangles"])
  ; ("tangent", ["trigonometric-functions"; "triangles"])
  ; ("sin", ["trigonometric-functions"; "triangles"])
  ; ("cos", ["trigonometric-functions"; "triangles"])
  ; ("tan", ["trigonometric-functions"; "triangles"])
  ; ("trig identity", ["trig-identities"; "trigonometric-functions"])
  ; ("trig equation", ["trig-equations"; "trig-identities"])
  ; ("inverse trig", ["inverse-trig"; "trigonometric-functions"])
  ; ("calculus", ["limits"; "functions-analysis"])
  ; ("limit", ["limits"; "functions-analysis"])
  ; ("continuity", ["limits"; "functions-analysis"])
  ; ("derivative", ["derivatives"; "limits"])
  ; ("integral", ["integrals"; "derivatives"])
  ; ("integration", ["integrals"; "derivatives"])
  ; ("differentiation", ["derivatives"; "limits"])
  ; ("fundamental theorem", ["integrals"; "derivatives"])
  ; ("optimization", ["applications-derivatives"])
  ; ("related rates", ["applications-derivatives"])
  ; ("maxima", ["applications-derivatives"])
  ; ("minima", ["applications-derivatives"])
  ; ("area integration", ["applications-integrals"])
  ; ("volume integration", ["applications-integrals"])
  ; ("statistics", ["basic-statistics"])
  ; ("probability", ["probability"; "basic-statistics"])
  ; ("mean", ["basic-statistics"])
  ; ("median", ["basic-statistics"])
  ; ("mode", ["basic-statistics"])
  ; ("average", ["basic-statistics"])
  ; ("standard deviation", ["basic-statistics"])
  ; ("data analysis", ["data-analysis"; "basic-statistics"])
  ; ("regression", ["regression"; "data-analysis"])
  ; ("statistical inference", ["statistics-inference"; "probability"])
  ; ("hypothesis testing", ["statistics-inference"])
  ; ("confidence interval", ["statistics-inference"])
  ].

(** One [topicIds.forEach(topicId => matchedTopicIds.add(topicId))]. *)
Definition addAll (matchedTopicIds topicIds : list string) : list string :=
  fold_left JS.setAdd topicIds matchedTopicIds.

(** The first [forEach] of [getTopicsFromQuery]: every keyword contained in
    the normalized query contributes its topic ids. *)
Definition exactPass (queryWords : string) (matchedTopicIds : list string) : list string :=
  fold_left
    (fun matched '(keyword, topicIds) =>
       if JS.includes queryWords keyword then addAll matched topicIds else matched)
    KEYWORD_TOPIC_MAP matchedTopicIds.

Definition partialMatches (queryWords : string) : list string :=
  List.filter (fun word => (3 <? String.length word)%nat) (JS.splitWs queryWords).

(** [keyword.split(' ')[0]]; [split] never returns an empty array. *)
Definition firstWord (keyword : string) : string :=
  hd EmptyString (JS.splitSpace keyword).

(** The second, nested [forEach]: keywords outside, kept tokens inside. *)
Definition partialPass (queryWords : string) (matchedTopicIds : list string) : list string :=
  fold_left
    (fun matched '(keyword, topicIds) =>
       fold_left
         (fun matched word =>
            if JS.includes keyword word || JS.includes word (firstWord keyword)
            then addAll matched topicIds else matched)
         (partialMatches queryWords) matched)
    KEYWORD_TOPIC_MAP matchedTopicIds.

Definition getTopicsFromQuery (query : string) : list string :=
  let queryWords := JS.trim (JS.toLowerCase query) in
  let matchedTopicIds := exactPass queryWords [] in
  let matchedTopicIds :=
    if (length matchedTopicIds =? 0)%nat
    then partialPass queryWords matchedTopicIds
    else matchedTopicIds in
  matchedTopicIds.

End Topics.

(** ** [src/lib/progress-service.ts] *)

Module Progress.

(** [PersistedProgress] of [types.ts]. *)
Record PersistedProgress := mkProgress {
  capturedTopics : list string;
  unlockedTopics : list string;
  quizAttempts : gmap string JS.Value;
  quizScores : gmap string JS.Value;
  lastActivity : Z;
  completionRate : Q
}.

(** [Partial<PersistedProgress>]: an absent key is [None]. *)
Record PartialProgress := mkPartial {
  capturedTopics' : option (list string);
  unlockedTopics' : option (list string);
  quizAttempts' : option (gmap string JS.Value);
  quizScores' : option (gmap string JS.Value);
  lastActivity' : option Z;
  completionRate' : option Q
}.

(** The item stored under [PROGRESS_STORAGE_KEY]; [None] when the key is
    absent (or its text does not parse). *)
Definition Storage := option PersistedProgress.

(** [{ ...current, ...updates }] *)
Definition spread (current : PersistedProgress) (updates : PartialProgress) : PersistedProgress :=
  {| capturedTopics := default (capturedTopics current) (capturedTopics' updates);
     unlockedTopics := default (unlockedTopics current) (unlockedTopics' updates);
     quizAttempts := default (quizAttempts current) (quizAttempts' updates);
     quizScores := default (quizScores current) (quizScores' updates);
     lastActivity := default (lastActivity current) (lastActivity' updates);
     completionRate := default (completionRate current) (completionRate' updates) |}.

Definition saveProgress (now : Z) (progress : PersistedProgress) (store : Storage) : Storage :=
  Some (spread progress
          {| capturedTopics' := None; unlockedTopics' := None; quizAttempts' := None;
             quizScores' := None; lastActivity' := Some now; completionRate' := None |}).

Definition loadProgress (store : Storage) : option PersistedProgress := store.

Definition clearProgress (store : Storage) : Storage := None.

Definition getDefaultProgress (now : Z) : PersistedProgress :=
  {| capturedTopics := [];
     unlockedTopics := ["quadratic-equations"];
     quizAttempts := ∅;
     quizScores := ∅;
     lastActivity := now;
     completionRate := 0 |}.

(** [loadProgress() || getDefaultProgress()] *)
Definition current (now : Z) (store : Storage) : PersistedProgress :=
  default (getDefaultProgress now) (loadProgress store).

Definition updateProgress (now : Z) (updates : PartialProgress) (store : Storage) : Storage :=
  let current := current now store in
  let updated := spread current updates in
  saveProgress now updated store.

Definition totalTopics : Z := 40.

(** [newScore] is [NaN] when the score read is not a number; it reaches the
    store through [JSON.stringify], hence [JS.jsonNumber]. *)
Definition recordQuizResult (now : Z) (topicId : string) (score : Z) (passed : bool)
    (store : Storage) : Storage :=
  let progress := current now store in
  let attempts := JS.addOne (JS.orZero (JS.getProp (quizAttempts progress) topicId)) in
  let currentScore := JS.orZero (JS.getProp (quizScores progress) topicId) in
  let newScore := JS.mathMax currentScore score in
  let capturedTopics0 :=
    if passed && negb (JS.arrIncludes (capturedTopics progress) topicId)
    then capturedTopics progress ++ [topicId]
    else capturedTopics progress in
  let completionRate0 :=
    (inject_Z (Z.of_nat (length capturedTopics0)) / inject_Z totalTopics * inject_Z 100)%Q in
  updateProgress now
    {| capturedTopics' := Some capturedTopics0;
       unlockedTopics' := None;
       quizAttempts' := Some (<[topicId := attempts]> (quizAttempts progress));
       quizScores' := Some (<[topicId := JS.jsonNumber newScore]> (quizScores progress));
       lastActivity' := None;
       completionRate' := Some completionRate0 |}
    store.

(** One call [recordQuizResult(topicId, score, passed)] together with the
    clock reading [Date.now()] it sees. *)
Record Call := mkCall {
  callTime : Z;
  callTopic : string;
  callScore : Z;
  callPassed : bool
}.

Definition record (store : Storage) (c : Call) : Storage :=
  recordQuizResult (callTime c) (callTopic c) (callScore c) (callPassed c) store.

(** A finite sequence of [recordQuizResult] calls, oldest first. *)
Definition recordAll (calls : list Call) (store : Storage) : Storage :=
  fold_left record calls store.

End Progress.

(** ** State handlers of [src/pages/Index.tsx] *)

Module Index.

(** The body of the recomputation effect for one node:
    [{ ...topic, unlocked: shouldUnlockTopic(topic.id, capturedTopics)
                          || unlockedTopics.includes(topic.id),
       captured: capturedTopics.includes(topic.id) }]. *)
Definition recomputeTopic (capturedTopics unlockedTopics : list string)
    (topic : Topics.Topic) : Topics.Topic :=
  {| Topics.id := Topics.id topic;
     Topics.difficulty := Topics.difficulty topic;
     Topics.connectedTopics := Topics.connectedTopics topic;
     Topics.captured := JS.arrIncludes capturedTopics (Topics.id topic);
     Topics.unlocked :=
       Topics.shouldUnlockTopic (Topics.id topic) capturedTopics
       || JS.arrIncludes unlockedTopics (Topics.id topic) |}.

Definition recomputeTopics (capturedTopics unlockedTopics : list string)
    (prevTopics : list Topics.Topic) : list Topics.Topic :=
  map (recomputeTopic capturedTopics unlockedTopics) prevTopics.

(** The unlocked flag the pass computes for a topic id. *)
Definition isUnlocked (topicId : string) (progress : Progress.PersistedProgress) : bool :=
  Topics.shouldUnlockTopic topicId (Progress.capturedTopics progress)
  || JS.arrIncludes (Progress.unlockedTopics progress) topicId.

(** [handleQuerySubmit]: the ids matched by the query that are neither
    unlocked nor captured yet. *)
Definition newlyUnlockable (query : string) (capturedTopics unlockedTopics : list string)
    : list string :=
  List.filter (fun topicId => negb (JS.arrIncludes unlockedTopics topicId)
                         && negb (JS.arrIncludes capturedTopics topicId))
         (Topics.getTopicsFromQuery query).

(** [setUnlockedTopics(prev => [...new Set([...prev, ...newlyUnlockable])])] *)
Definition unlockDiscovered (query : string) (capturedTopics unlockedTopics : list string)
    : list string :=
  match newlyUnlockable query capturedTopics unlockedTopics with
  | [] => unlockedTopics
  | delta => JS.dedupe (unlockedTopics ++ delta)
  end.

(** Keyword discovery read on the stored record alone: the handler above
    applied to the two lists of the record, followed by the saving effect
    [updateProgress({ capturedTopics, unlockedTopics })]. This is what a page
    does whose two state cells hold the lists of the record, as they do right
    after a mount; the page with its own state, which can lag behind the
    store, is [Page] below. *)
Definition discover (now : Z) (query : string) (store : Progress.Storage) : Progress.Storage :=
  let progress := Progress.current now store in
  let capturedTopics := Progress.capturedTopics progress in
  let unlockedTopics := unlockDiscovered query capturedTopics (Progress.unlockedTopics progress) in
  Progress.updateProgress now
    {| Progress.capturedTopics' := Some capturedTopics;
       Progress.unlockedTopics' := Some unlockedTopics;
       Progress.quizAttempts' := None;
       Progress.quizScores' := None;
       Progress.lastActivity' := None;
       Progress.completionRate' := None |}
    store.

(** [handleLearningComplete]: capture the territory if passed (score >= 60%). *)
Definition handleLearningComplete (topicId : string) (score : Z)
    (capturedTopics : list string) : list string :=
  if (60 <=? score)%Z && negb (JS.arrIncludes capturedTopics topicId)
  then capturedTopics ++ [topicId]
  else capturedTopics.

(** The end of a learning session read on the stored record alone: the
    handler followed by the saving effect, under the same reading as
    [discover]. *)
Definition learningComplete (now : Z) (topicId : string) (score : Z)
    (store : Progress.Storage) : Progress.Storage :=
  let progress := Progress.current now store in
  Progress.updateProgress now
    {| Progress.capturedTopics' :=
         Some (handleLearningComplete topicId score (Progress.capturedTopics progress));
       Progress.unlockedTopics' := Some (Progress.unlockedTopics progress);
       Progress.quizAttempts' := None;
       Progress.quizScores' := None;
       Progress.lastActivity' := None;
       Progress.completionRate' := None |}
    store.

End Index.

(** ** The mounted page and the store beside it *)

Module Page.

(** The two cells of React state that reach the store. *)
Record State := mkState {
  capturedTopics : list string;
  unlockedTopics : list string
}.

(** A mounted page, and the store it shares with every other caller of the
    progress service. *)
Record World := mkWorld {
  page : State;
  store : Progress.Storage
}.

(** The unlocked flag the recomputation effect derives from the state. *)
Definition isUnlocked (topicId : string) (st : State) : bool :=
  Topics.shouldUnlockTopic topicId (capturedTopics st)
  || JS.arrIncludes (unlockedTopics st) topicId.

(** The saving effect, [updateProgress({ capturedTopics, unlockedTopics })]:
    it runs after a render in which one of the two cells changed, and writes
    the lists of that render over the lists of the store. *)
Definition saveEffect (now : Z) (st : State) (store : Progress.Storage) : Progress.Storage :=
  Progress.updateProgress now
    {| Progress.capturedTopics' := Some (capturedTopics st);
       Progress.unlockedTopics' := Some (unlockedTopics st);
       Progress.quizAttempts' := None;
       Progress.quizScores' := None;
       Progress.lastActivity' := None;
       Progress.completionRate' := None |}
    store.

(** The loading effect: the lists of the saved record, or the first-time
    state when nothing is saved. *)
Definition loaded (store : Progress.Storage) : State :=
  match Progress.loadProgress store with
  | Some savedProgress =>
      mkState (Progress.capturedTopics savedProgress) (Progress.unlockedTopics savedProgress)
  | None => mkState [] ["quadratic-equations"]
  end.

(** Mounting the page. The first render holds two empty lists; after it the
    loading effect reads the store and the saving effect writes the empty
    lists of that render; the render that follows holds the loaded lists and
    saves them. *)
Definition mount (now : Z) (store : Progress.Storage) : World :=
  let st := loaded store in
  mkWorld st (saveEffect now st (saveEffect now (mkState [] []) store)).

(** A state change: the next render holds [st] and its saving effect runs. *)
Definition rerender (now : Z) (st : State) (w : World) : World :=
  mkWorld st (saveEffect now st (store w)).

(** [handleLearningComplete]: the state changes, and the store is written,
    only when the score passes and the topic is not captured yet. *)
Definition handleLearningComplete (now : Z) (topicId : string) (score : Z) (w : World)
    : World :=
  if (60 <=? score)%Z && negb (JS.arrIncludes (capturedTopics (page w)) topicId)
  then rerender now (mkState (capturedTopics (page w) ++ [topicId])
                             (unlockedTopics (page w))) w
  else w.

(** [handleQuerySubmit], as far as the two lists go: a blank query returns
    early, and the state changes only when the query discovers a topic that
    is neither unlocked nor captured. *)
Definition handleQuerySubmit (now : Z) (userQuery : string) (w : World) : World :=
  if String.eqb (JS.trim userQuery) EmptyString then w
  else
    let query := JS.trim userQuery in
    match Index.newlyUnlockable query (capturedTopics (page w)) (unlockedTopics (page w)) with
    | [] => w
    | newlyUnlockable =>
        rerender now (mkState (capturedTopics (page w))
                              (JS.dedupe (unlockedTopics (page w) ++ newlyUnlockable))) w
    end.

(** What can happen to a mounted page and its store: the two handlers of
    the page, a reload of the page, and the calls of the progress service
    made beside the page, which reach the store and not the state. *)
Inductive Op :=
| LearningComplete (topicId : string) (score : Z)
| QuerySubmit (userQuery : string)
| Reload
| RecordQuizResult (topicId : string) (score : Z) (passed : bool)
| UpdateProgress (updates : Progress.PartialProgress).

(** One operation at clock reading [now]. *)
Definition step (w : World) (e : Z * Op) : World :=
  let '(now, op) := e in
  match op with
  | LearningComplete topicId score => handleLearningComplete now topicId score w
  | QuerySubmit userQuery => handleQuerySubmit now userQuery w
  | Reload => mount now (store w)
  | RecordQuizResult topicId score passed =>
      mkWorld (page w) (Progress.recordQuizResult now topicId score passed (store w))
  | UpdateProgress updates =>
      mkWorld (page w) (Progress.updateProgress now updates (store w))
  end.

Definition run (ops : list (Z * Op)) (w : World) : World :=
  fold_left step ops w.

End Page.


(** ** [getQuizQuestions] of [src/lib/topics.ts] *)

Module Questions.

(** [QuizQuestion] of [types.ts]; the texts [question] and [explanation]
    are left out. *)
Record QuizQuestion := mkQuestion {
  id : string;
  options : list string;
  correctAnswer : nat
}.

Definition quizBank : list (string * list QuizQuestion) :=
  [ ("quadratic-equations",
     [ mkQuestion "qe-1" ["ax + b = 0"; "ax² + bx + c = 0"; "ax³ + bx² + c = 0"; "ax² = 0"] 1
     ; mkQuestion "qe-2" ["2"; "-5"; "3"; "0"] 2
     ; mkQuestion "qe-3" ["x² + 5x = 0"; "2x² - 3 = 0"; "x + 7 = 0"; "x² = 16"] 2
     ; mkQuestion "qe-4" ["0"; "1"; "2"; "infinite"] 3 ])
  ; ("linear-equations",
     [ mkQuestion "le-1" ["Y-intercept"; "Rate of change"; "X-coordinate"; "B constant"] 1
     ; mkQuestion "le-2" ["Horizontal"; "Vertical"; "Up and to the right";
                          "Down and to the right"] 3
     ; mkQuestion "le-3" ["x = 4"; "x = 8"; "x = 28"; "x = 4.5"] 0 ])
  ].

(** What [quizBank[topicId] || []] evaluates to: the array of the bank,
    the empty array, or, for an id that names a member of [Object.prototype],
    that inherited member, which is truthy. *)
Inductive Found :=
| Questions (questions : list QuizQuestion)
| InheritedMember (member : string).

Definition quizBankAt (topicId : string) : Found :=
  match find (fun entry => String.eqb (fst entry) topicId) quizBank with
  | Some entry => Questions (snd entry)
  | None =>
      if JS.arrIncludes JS.objectPrototypeMembers topicId
      then InheritedMember topicId
      else Questions []
  end.

(** The questions at the indices [0], [1], ... of the value found, which is
    all the quiz component reads before it renders; an inherited member has
    none. *)
Definition indexed (found : Found) : list QuizQuestion :=
  match found with
  | Questions questions => questions
  | InheritedMember _ => []
  end.

(** [getQuizQuestions], through the questions at its indices. *)
Definition getQuizQuestions (topicId : string) : list QuizQuestion :=
  indexed (quizBankAt topicId).

End Questions.

(** ** The component of [src/components/Quiz.tsx] *)

Module Quiz.

(** The four [useState] cells. *)
Record State := mkState {
  currentQuestionIndex : nat;
  selectedAnswer : option nat;
  showFeedback : bool;
  score : nat
}.

Definition initial : State := mkState 0 None false 0.

(** The values computed at each render. *)
Record Render := mkRender {
  currentQuestion : Questions.QuizQuestion;
  isLastQuestion : bool;
  isCorrect : bool
}.

(** [questions[currentQuestionIndex]] is [undefined] past the end of the
    array, and reading [currentQuestion.correctAnswer] then throws: the
    render fails, which is [None] here. *)
Definition render (questions : list Questions.QuizQuestion) (st : State) : option Render :=
  match nth_error questions (currentQuestionIndex st) with
  | None => None
  | Some q =>
      Some {| currentQuestion := q;
              isLastQuestion :=
                (Z.of_nat (currentQuestionIndex st) =? Z.of_nat (length questions) - 1)%Z;
              isCorrect :=
                match selectedAnswer st with
                | Some a => (a =? Questions.correctAnswer q)%nat
                | None => false
                end |}
  end.

Definition handleAnswerSelect (index : nat) (st : State) : State :=
  if showFeedback st then st
  else mkState (currentQuestionIndex st) (Some index) (showFeedback st) (score st).

Definition handleSubmit (r : Render) (st : State) : State :=
  match selectedAnswer st with
  | None => st
  | Some _ =>
      mkState (currentQuestionIndex st) (selectedAnswer st) true
              (if isCorrect r then score st + 1 else score st)
  end.

(** [Math.round(((score + (isCorrect ? 1 : 0)) / questions.length) * 100)] *)
Definition finalScore (questions : list Questions.QuizQuestion) (r : Render) (st : State) : Z :=
  JS.mathRound
    (inject_Z (Z.of_nat (score st + if isCorrect r then 1 else 0))
     / inject_Z (Z.of_nat (length questions)) * inject_Z 100)%Q.

(** The new state and the argument of [onComplete], if it is called. *)
Definition handleNext (questions : list Questions.QuizQuestion) (r : Render) (st : State)
    : State * option Z :=
  if isLastQuestion r then (st, Some (finalScore questions r st))
  else (mkState (currentQuestionIndex st + 1) None false (score st), None).

(** What the user can do: pick an option, press Submit, press Next. *)
Inductive Event :=
| Select (index : nat)
| Submit
| Next.

(** One event on a rendered component. The Submit button is shown before
    the feedback and disabled without a selection; the Next button is shown
    with the feedback. [None] when the render throws. *)
Definition step (questions : list Questions.QuizQuestion) (st : State) (ev : Event)
    : option (State * option Z) :=
  match render questions st with
  | None => None
  | Some r =>
      match ev with
      | Select index => Some (handleAnswerSelect index st, None)
      | Submit =>
          if showFeedback st then Some (st, None) else Some (handleSubmit r st, None)
      | Next =>
          if showFeedback st then Some (handleNext questions r st) else Some (st, None)
      end
  end.

(** A sequence of events, stopping at the first [onComplete]. *)
Fixpoint run (questions : list Questions.QuizQuestion) (st : State) (evs : list Event)
    : option (State * option Z) :=
  match evs with
  | [] => Some (st, None)
  | ev :: rest =>
      match step questions st ev with
      | None => None
      | Some (st', Some final) => Some (st', Some final)
      | Some (st', None) => run questions st' rest
      end
  end.

End Quiz.

(** ** The unlock gate of [src/components/GalaxyMap.tsx] *)

Module GalaxyMap.

(** [topic.unlocked || capturedTopics.some((id) =>
      topics.find((t) => t.id === id)?.connectedTopics.includes(topic.id))] *)
Definition isUnlocked (topics : list Topics.Topic) (capturedTopics : list string)
    (topic : Topics.Topic) : bool :=
  Topics.unlocked topic
  || existsb
       (fun id0 =>
          match find (fun t => String.eqb (Topics.id t) id0) topics with
          | Some t => JS.arrIncludes (Topics.connectedTopics t) (Topics.id topic)
          | None => false
          end)
       capturedTopics.

Definition isCaptured (capturedTopics : list string) (topic : Topics.Topic) : bool :=
  JS.arrIncludes capturedTopics (Topics.id topic).

(** [onClick={() => isUnlocked && onTopicClick(topic)}]: the topic handed to
    [onTopicClick], if any. *)
Definition onClick (topics : list Topics.Topic) (capturedTopics : list string)
    (topic : Topics.Topic) : option Topics.Topic :=
  if isUnlocked topics capturedTopics topic then Some topic else None.

End GalaxyMap.

(** ** The earlier page [src/pages/Index.tsx] *)

Module LegacyIndex.

(** The recomputation effect: the flag of the previous state is kept. *)
Definition recomputeTopic (capturedTopics : list string) (topic : Topics.Topic)
    : Topics.Topic :=
  {| Topics.id := Topics.id topic;
     Topics.difficulty := Topics.difficulty topic;
     Topics.connectedTopics := Topics.connectedTopics topic;
     Topics.captured := JS.arrIncludes capturedTopics (Topics.id topic);
     Topics.unlocked :=
       Topics.shouldUnlockTopic (Topics.id topic) capturedTopics || Topics.unlocked topic |}.

Definition recomputeTopics (capturedTopics : list string) (prevTopics : list Topics.Topic)
    : list Topics.Topic :=
  map (recomputeTopic capturedTopics) prevTopics.

(** [handleQuerySubmit]: the topic handed to [setCurrentTopic]; [None] when
    the handler returns early or finds nothing. *)
Definition handleQuerySubmit (userQuery : string) : option Topics.Topic :=
  if String.eqb (JS.trim userQuery) EmptyString then None
  else
    let query := JS.toLowerCase userQuery in
    if JS.includes query "quadratic formula" || JS.includes query "formula"
    then Topics.getTopicById "quadratic-formula"
    else if JS.includes query "graph" || JS.includes query "parabola"
    then Topics.getTopicById "parabola-graphs"
    else if JS.includes query "vertex"
    then Topics.getTopicById "vertex-form"
    else if JS.includes query "completing" || JS.includes query "square"
    then Topics.getTopicById "completing-square"
    else if JS.includes query "discriminant"
    then Topics.getTopicById "discriminant"
    else if JS.includes query "factor"
    then Topics.getTopicById "factorization"
    else if JS.includes query "application" || JS.includes query "real world"
    then Topics.getTopicById "real-world-applications"
    else if JS.includes query "complex" || JS.includes query "imaginary"
    then Topics.getTopicById "complex-roots"
    else Topics.getTopicById "quadratic-equations".

End LegacyIndex.

(** ** Vocabulary of the properties *)

Module Spec.

(** The topic that is unlocked before any progress exists. *)
Definition rootTopic : string := "quadratic-equations".

(** Every character of [s] is whitespace. *)
Fixpoint allSpace (s : string) : bool :=
  match s with
  | EmptyString => true
  | String c s' => JS.isSpace c && allSpace s'
  end.

(** The normalization done on entry of the matcher. *)
Definition normalize (query : string) : string := JS.trim (JS.toLowerCase query).

(** Every captured topic is the root or explicitly unlocked. *)
Definition capturedWithinUnlocked (P : Progress.PersistedProgress) : Prop :=
  forall T, In T (Progress.capturedTopics P) ->
            T = rootTopic \/ In T (Progress.unlockedTopics P).

(** Every captured topic is one the recomputation pass reports unlocked. *)
Definition capturedAreUnlocked (P : Progress.PersistedProgress) : Prop :=
  forall T, In T (Progress.capturedTopics P) -> Index.isUnlocked T P = true.

(** Every topic the page holds as captured is one it shows unlocked. *)
Definition pageCapturedAreUnlocked (st : Page.State) : Prop :=
  forall T, In T (Page.capturedTopics st) -> Page.isUnlocked T st = true.

(** The discipline under which the record stays consistent: a capture is
    only made for a topic that is unlocked at that moment, for the page by
    its own state and for [recordQuizResult] by the stored record, and the
    record is not overwritten by a raw [updateProgress]. Neither
    [recordQuizResult] nor [handleLearningComplete] checks it. *)
Definition admissible (w : Page.World) (e : Z * Page.Op) : bool :=
  let '(now, op) := e in
  match op with
  | Page.LearningComplete topicId score =>
      implb (60 <=? score)%Z (Page.isUnlocked topicId (Page.page w))
  | Page.QuerySubmit _ => true
  | Page.Reload => true
  | Page.RecordQuizResult topicId _ passed =>
      implb passed (Index.isUnlocked topicId (Progress.current now (Page.store w)))
  | Page.UpdateProgress _ => false
  end.

Fixpoint disciplined (ops : list (Z * Page.Op)) (w : Page.World) : bool :=
  match ops with
  | [] => true
  | e :: rest => admissible w e && disciplined rest (Page.step w e)
  end.

(** The number on record under [T], [0] when there is none. *)
Definition numberAt (obj : gmap string JS.Value) (T : string) : Z :=
  match obj !! T with
  | Some (JS.Num n) => n
  | _ => 0%Z
  end.

(** The attempt count and the best score on record for [T], [0] when the
    map has no entry (the clock reading only fills [lastActivity] of the
    default record). *)
Definition attemptsOf (T : string) (store : Progress.Storage) : Z :=
  numberAt (Progress.quizAttempts (Progress.current 0 store)) T.

Definition bestOf (T : string) (store : Progress.Storage) : Z :=
  numberAt (Progress.quizScores (Progress.current 0 store)) T.

(** Reading [T] in [obj] gives a number, [null] or [undefined]: [T] has an
    own entry that is not a text, or has no entry and does not name a member
    of [Object.prototype]. *)
Definition plainEntry (obj : gmap string JS.Value) (T : string) : bool :=
  match JS.getProp obj T with
  | JS.Own (JS.Num _) | JS.Own JS.Null | JS.Undefined => true
  | _ => false
  end.

(** [T] is read as a plain number in both maps of the stored record. *)
Definition plainTopic (T : string) (store : Progress.Storage) : bool :=
  plainEntry (Progress.quizAttempts (Progress.current 0 store)) T
  && plainEntry (Progress.quizScores (Progress.current 0 store)) T.

(** The largest count that [+ 1] still increments exactly is 2^53 - 1. *)
Definition maxSafeCount : Z := 9007199254740992.

(** One call counts and scores exactly: it stores, for [topicId], the count
    on record plus 1 and the maximum of the best on record and [score]. *)
Definition countsExactly (store : Progress.Storage) (now : Z) (topicId : string)
    (score : Z) (passed : bool) : Prop :=
  exists P',
    Progress.recordQuizResult now topicId score passed store = Some P' /\
    Progress.quizAttempts P' !! topicId
      = Some (JS.Num (attemptsOf topicId store + 1)) /\
    Progress.quizScores P' !! topicId
      = Some (JS.Num (Z.max (bestOf topicId store) score)).

(** The completion rate the captured set calls for: its size over the number
    of topics of the store, times 100. *)
Definition liveCompletionRate (capturedTopics : list string) : Q :=
  (inject_Z (Z.of_nat (length capturedTopics))
   / inject_Z (Z.of_nat (length Topics.GALAXY_TOPICS)) * inject_Z 100)%Q.

(** Number of calls of a sequence that name topic [T]. *)
Definition callsFor (T : string) (calls : list Progress.Call) : nat :=
  length (List.filter (fun c => String.eqb (Progress.callTopic c) T) calls).

(** [topicId] belongs to a keyword that [queryWords] contains. *)
Definition exactMatch (queryWords topicId : string) : Prop :=
  exists keyword topicIds,
    In (keyword, topicIds) Topics.KEYWORD_TOPIC_MAP /\
    JS.includes queryWords keyword = true /\ In topicId topicIds.

(** [topicId] belongs to a keyword that is loosely matched by a token of
    [queryWords] longer than 3 characters: the keyword contains the token,
    or the token contains the first word of the keyword. *)
Definition partialMatch (queryWords topicId : string) : Prop :=
  exists keyword topicIds word,
    In (keyword, topicIds) Topics.KEYWORD_TOPIC_MAP /\
    In word (JS.splitWs queryWords) /\ (3 < String.length word)%nat /\
    (JS.includes keyword word = true \/
     JS.includes word (Topics.firstWord keyword) = true) /\
    In topicId topicIds.

(** No keyword of the table occurs in [queryWords]. *)
Definition noKeywordIn (queryWords : string) : Prop :=
  forall keyword topicIds,
    In (keyword, topicIds) Topics.KEYWORD_TOPIC_MAP ->
    JS.includes queryWords keyword = false.

(** Laying a later partial update over an earlier one, key by key. *)
Definition overlay (earlier later : Progress.PartialProgress) : Progress.PartialProgress :=
  {| Progress.capturedTopics' :=
       match Progress.capturedTopics' later with
       | Some v => Some v | None => Progress.capturedTopics' earlier end;
     Progress.unlockedTopics' :=
       match Progress.unlockedTopics' later with
       | Some v => Some v | None => Progress.unlockedTopics' earlier end;
     Progress.quizAttempts' :=
       match Progress.quizAttempts' later with
       | Some v => Some v | None => Progress.quizAttempts' earlier end;
     Progress.quizScores' :=
       match Progress.quizScores' later with
       | Some v => Some v | None => Progress.quizScores' earlier end;
     Progress.lastActivity' :=
       match Progress.lastActivity' later with
       | Some v => Some v | None => Progress.lastActivity' earlier end;
     Progress.completionRate' :=
       match Progress.completionRate' later with
       | Some v => Some v | None => Progress.completionRate' earlier end |}.

(** The scores of the calls of a sequence that name topic [T], in order. *)
Definition scoresFor (T : string) (calls : list Progress.Call) : list Z :=
  map Progress.callScore
      (List.filter (fun c => String.eqb (Progress.callTopic c) T) calls).

(** Some captured topic of the store lists [topicId] in its adjacency. *)
Definition listedByCaptured (capturedTopics : list string) (topicId : string) : bool :=
  existsb
    (fun id0 =>
       match Topics.getTopicById id0 with
       | Some t => JS.arrIncludes (Topics.connectedTopics t) topicId
       | None => false
       end)
    capturedTopics.

(** The earlier page after one recomputation per captured list, oldest
    first. *)
Definition legacyHistory (history : list (list string)) (topic : Topics.Topic)
    : Topics.Topic :=
  fold_left (fun t capturedTopics => LegacyIndex.recomputeTopic capturedTopics t)
            history topic.

(** The clicks of a user who answers every question in turn: pick an
    option, submit, go on. *)
Definition answerEvents (answers : list nat) : list Quiz.Event :=
  flat_map (fun a => [Quiz.Select a; Quiz.Submit; Quiz.Next]) answers.

(** How many of the answers are the correct ones, question by question. *)
Fixpoint correctCount (questions : list Questions.QuizQuestion) (answers : list nat) : nat :=
  match questions, answers with
  | q :: questions', a :: answers' =>
      (if (a =? Questions.correctAnswer q)%nat then 1 else 0)
      + correctCount questions' answers'
  | _, _ => 0
  end%nat.

(** Whether the answer to the last question is the correct one. *)
Fixpoint lastCorrect (questions : list Questions.QuizQuestion) (answers : list nat) : bool :=
  match questions, answers with
  | [q], [a] => (a =? Questions.correctAnswer q)%nat
  | _ :: questions', _ :: answers' => lastCorrect questions' answers'
  | _, _ => false
  end.

(** [Math.round((k / n) * 100)] *)
Definition percent (k n : nat) : Z :=
  JS.mathRound (inject_Z (Z.of_nat k) / inject_Z (Z.of_nat n) * inject_Z 100)%Q.

(** [k / n * 100] lies exactly halfway between two integers, the one place
    where rounding the computed double could leave the exact value. *)
Definition halfway (k n : nat) : bool :=
  ((200 * Z.of_nat k) mod (2 * Z.of_nat n) =? Z.of_nat n)%Z.

(** The routing table of the earlier page's query box, in the order the
    page tries it: the words looked for, and the topic opened when one of
    them occurs in the lower-cased query. *)
Definition legacyRules : list (list string * string) :=
  [ (["quadratic formula"; "formula"], "quadratic-formula");
    (["graph"; "parabola"], "parabola-graphs");
    (["vertex"], "vertex-form");
    (["completing"; "square"], "completing-square");
    (["discriminant"], "discriminant");
    (["factor"], "factorization");
    (["application"; "real world"], "real-world-applications");
    (["complex"; "imaginary"], "complex-roots") ].

(** The first rule with a word that occurs in [query] decides; the root
    topic is the default. *)
Definition legacyTopicId (query : string) : string :=
  match find (fun rule => existsb (JS.includes query) (fst rule)) legacyRules with
  | Some rule => snd rule
  | None => "quadratic-equations"
  end.

(** None of the words of the table occurs in [query]. *)
Definition noLegacyWord (query : string) : bool :=
  forallb (fun word => negb (JS.includes query word)) (flat_map fst legacyRules).


(** The operation is one of the page itself. *)
Definition byPage (op : Page.Op) : bool :=
  match op with
  | Page.LearningComplete _ _ | Page.QuerySubmit _ | Page.Reload => true
  | _ => false
  end.


(** What the quiz state allows at any moment: the score counts at most the
    questions passed and the one on display once it is submitted. *)
Definition quizConsistent (st : Quiz.State) : Prop :=
  (Quiz.score st <= Quiz.currentQuestionIndex st
                    + if Quiz.showFeedback st then 1 else 0)%nat.

End Spec.

(** * Properties *)

(** ** Arrays and strings *)

Lemma arrIncludes_In (arr : list string) (x : string) :
  JS.arrIncludes arr x = true <-> In x arr.
Proof.
  unfold JS.arrIncludes. rewrite existsb_exists. split.
  - intros (y & Hy & Heq). apply String.eqb_eq in Heq. now subst.
  - intros Hin. exists x. split; [assumption | apply String.eqb_refl].
Qed.

Lemma arrIncludes_false (arr : list string) (x : string) :
  JS.arrIncludes arr x = false <-> ~ In x arr.
Proof.
  rewrite <- arrIncludes_In. destruct (JS.arrIncludes arr x); intuition congruence.
Qed.

Lemma arrIncludes_mono (arr arr' : list string) (x : string) :
  incl arr arr' -> JS.arrIncludes arr x = true -> JS.arrIncludes arr' x = true.
Proof. rewrite !arrIncludes_In. auto. Qed.

(** ** The topic store *)

Section Store.

Variable topics : list Topics.Topic.
Hypothesis ids_unique : NoDup (map Topics.id topics).

(** With unique ids, looking a stored node up by its id finds that node. *)
Lemma find_by_id (A : Topics.Topic) :
  In A topics ->
  find (fun topic => String.eqb (Topics.id topic) (Topics.id A)) topics = Some A.
Proof.
  induction topics as [|t ts IH]; simpl; [tauto|].
  apply NoDup_cons in ids_unique as [Hnotin Hnodup].
  intros [-> | Hin].
  - now rewrite String.eqb_refl.
  - destruct (String.eqb_spec (Topics.id t) (Topics.id A)) as [Heq | _].
    + exfalso. apply Hnotin. rewrite Heq. apply list_elem_of_In. now apply in_map.
    + auto.
Qed.

End Store.

Lemma find_by_id_miss (topics : list Topics.Topic) (topicId : string) :
  ~ In topicId (map Topics.id topics) ->
  find (fun topic => String.eqb (Topics.id topic) topicId) topics = None.
Proof.
  induction topics as [|t ts IH]; simpl; [reflexivity|].
  intros Hnot. destruct (String.eqb_spec (Topics.id t) topicId) as [Heq | _].
  - exfalso. apply Hnot. now left.
  - apply IH. intros Hin. apply Hnot. now right.
Qed.

Lemma galaxy_ids_unique : NoDup (map Topics.id Topics.GALAXY_TOPICS).
Proof. apply (bool_decide_unpack _). vm_compute. exact I. Qed.

Lemma getTopicById_stored (A : Topics.Topic) :
  In A Topics.GALAXY_TOPICS -> Topics.getTopicById (Topics.id A) = Some A.
Proof. apply find_by_id, galaxy_ids_unique. Qed.

(** ** The unlock check *)

(** [shouldUnlockTopic] on a stored node: its own flag, or a captured
    entry of its own adjacency list. *)
Lemma shouldUnlockTopic_stored (A : Topics.Topic) (capturedTopics : list string) :
  In A Topics.GALAXY_TOPICS ->
  Topics.shouldUnlockTopic (Topics.id A) capturedTopics =
  Topics.unlocked A ||
  existsb (JS.arrIncludes capturedTopics) (Topics.connectedTopics A).
Proof.
  intros HA. unfold Topics.shouldUnlockTopic.
  rewrite (getTopicById_stored A HA). now destruct (Topics.unlocked A).
Qed.

(** Capturing more topics never locks a topic again. *)
Lemma shouldUnlockTopic_mono (topicId : string) (captured captured' : list string) :
  incl captured captured' ->
  Topics.shouldUnlockTopic topicId captured = true ->
  Topics.shouldUnlockTopic topicId captured' = true.
Proof.
  intros Hincl. unfold Topics.shouldUnlockTopic.
  destruct (Topics.getTopicById topicId) as [topic|]; [|discriminate].
  destruct (Topics.unlocked topic); [reflexivity|].
  rewrite !existsb_exists. intros (c & Hc & Hin).
  exists c. split; [assumption|]. now apply (arrIncludes_mono captured).
Qed.

Lemma isUnlocked_mono (topicId : string) (P P' : Progress.PersistedProgress) :
  incl (Progress.capturedTopics P) (Progress.capturedTopics P') ->
  incl (Progress.unlockedTopics P) (Progress.unlockedTopics P') ->
  Index.isUnlocked topicId P = true -> Index.isUnlocked topicId P' = true.
Proof.
  intros Hc Hu. unfold Index.isUnlocked. rewrite !orb_true_iff.
  intros [H | H]; [left | right].
  - now apply (shouldUnlockTopic_mono _ _ _ Hc).
  - now apply (arrIncludes_mono _ _ _ Hu).
Qed.

(** C1, as stated, fails: [shouldUnlockTopic] receives the captured list
    only, so an id that sits in [unlockedTopics] but has no captured
    neighbour and no static flag is reported locked. *)
Lemma shouldUnlockTopic_ignores_unlockedTopics :
  ~ (forall (T : string) (P : Progress.PersistedProgress),
        In T (Progress.unlockedTopics P) ->
        Topics.shouldUnlockTopic T (Progress.capturedTopics P) = true).
Proof.
  intros H.
  specialize (H "matrices"
    (Progress.mkProgress [] ["quadratic-equations"; "matrices"] ∅ ∅ 0 0)).
  simpl in H. specialize (H (or_intror (or_introl eq_refl))).
  vm_compute in H. discriminate H.
Qed.

(** C1 (amended): a topic id in [unlockedTopics] is reported unlocked by the
    recomputation pass, which ORs [shouldUnlockTopic] with the membership in
    [unlockedTopics]; this holds whatever is captured, and for every node
    carrying that id. *)
Theorem recompute_unlockedTopics_sticky
    (T : string) (P : Progress.PersistedProgress) :
  In T (Progress.unlockedTopics P) ->
  Index.isUnlocked T P = true /\
  forall topic : Topics.Topic,
    Topics.id topic = T ->
    Topics.unlocked
      (Index.recomputeTopic (Progress.capturedTopics P) (Progress.unlockedTopics P) topic)
    = true.
Proof.
  intros Hin. apply arrIncludes_In in Hin. split.
  - unfold Index.isUnlocked. rewrite Hin. apply orb_true_r.
  - intros topic <-. simpl. rewrite Hin. apply orb_true_r.
Qed.

Lemma recompute_unlockedTopics_sticky_witness :
  In "matrices" (Progress.unlockedTopics
     (Progress.mkProgress [] ["quadratic-equations"; "matrices"] ∅ ∅ 0 0)) /\
  Index.isUnlocked "matrices"
     (Progress.mkProgress [] ["quadratic-equations"; "matrices"] ∅ ∅ 0 0) = true.
Proof.
  split.
  - simpl. right. left. reflexivity.
  - apply (recompute_unlockedTopics_sticky "matrices"
             (Progress.mkProgress [] ["quadratic-equations"; "matrices"] ∅ ∅ 0 0)).
    simpl. right. left. reflexivity.
Defined.

(** C4: a stored topic A is unlocked as soon as one id of A's own
    [connectedTopics] is captured; [unlockedTopics] plays no part and the
    captured neighbour need not list A back. *)
Theorem shouldUnlockTopic_captured_neighbour
    (A : Topics.Topic) (P : Progress.PersistedProgress) (B : string) :
  In A Topics.GALAXY_TOPICS ->
  In B (Topics.connectedTopics A) ->
  In B (Progress.capturedTopics P) ->
  Topics.shouldUnlockTopic (Topics.id A) (Progress.capturedTopics P) = true.
Proof.
  intros HA HB Hcap. rewrite (shouldUnlockTopic_stored A _ HA).
  apply orb_true_iff. right. apply existsb_exists.
  exists B. split; [assumption | now apply arrIncludes_In].
Qed.

(** [completing-square] lists [quadratic-formula], which does not list it
    back, and is not in [unlockedTopics] here. *)
Lemma shouldUnlockTopic_captured_neighbour_witness :
  let A := Topics.mkTopic "completing-square" Topics.intermediate
             ["vertex-form"; "quadratic-formula"; "quadratic-equations"] false false in
  let P := Progress.mkProgress ["quadratic-formula"] [] ∅ ∅ 0 0 in
  (Topics.getTopicById "quadratic-formula" =
     Some (Topics.mkTopic "quadratic-formula" Topics.beginner
             ["quadratic-equations"; "discriminant"; "complex-roots"] false false)) /\
  Topics.shouldUnlockTopic (Topics.id A) (Progress.capturedTopics P) = true.
Proof.
  split; [reflexivity|].
  apply (shouldUnlockTopic_captured_neighbour
           (Topics.mkTopic "completing-square" Topics.intermediate
              ["vertex-form"; "quadratic-formula"; "quadratic-equations"] false false)
           (Progress.mkProgress ["quadratic-formula"] [] ∅ ∅ 0 0)
           "quadratic-formula").
  - vm_compute. tauto.
  - simpl. right. left. reflexivity.
  - simpl. left. reflexivity.
Defined.

(** C8: for an id that no stored topic carries, the lookup answers
    [undefined] and the unlock check answers [false]; both are total, no
    error path exists. *)
Theorem shouldUnlockTopic_unknown
    (topicId : string) (P : Progress.PersistedProgress) :
  ~ In topicId (map Topics.id Topics.GALAXY_TOPICS) ->
  Topics.getTopicById topicId = None /\
  Topics.getConnectedTopics topicId = [] /\
  Topics.shouldUnlockTopic topicId (Progress.capturedTopics P) = false.
Proof.
  intros Hnot.
  assert (Hnone : Topics.getTopicById topicId = None)
    by now apply find_by_id_miss.
  unfold Topics.getConnectedTopics, Topics.shouldUnlockTopic.
  now rewrite Hnone.
Qed.

Lemma shouldUnlockTopic_unknown_witness :
  ~ In "no-such-topic" (map Topics.id Topics.GALAXY_TOPICS) /\
  Topics.shouldUnlockTopic "no-such-topic" ["quadratic-equations"] = false.
Proof.
  assert (Hnot : ~ In "no-such-topic" (map Topics.id Topics.GALAXY_TOPICS)).
  { rewrite <- arrIncludes_false. vm_compute. reflexivity. }
  split; [exact Hnot|].
  apply (shouldUnlockTopic_unknown "no-such-topic"
           (Progress.mkProgress ["quadratic-equations"] [] ∅ ∅ 0 0) Hnot).
Defined.

(** ** Recording quiz results *)

(** The record written by one call, field by field. *)
Lemma recordQuizResult_stored (now : Z) (topicId : string) (score : Z) (passed : bool)
    (store : Progress.Storage) :
  let progress := Progress.current now store in
  let captured' :=
    if passed && negb (JS.arrIncludes (Progress.capturedTopics progress) topicId)
    then Progress.capturedTopics progress ++ [topicId]
    else Progress.capturedTopics progress in
  Progress.recordQuizResult now topicId score passed store =
  Some {| Progress.capturedTopics := captured';
          Progress.unlockedTopics := Progress.unlockedTopics progress;
          Progress.quizAttempts :=
            <[topicId := JS.addOne (JS.orZero
                           (JS.getProp (Progress.quizAttempts progress) topicId))]>
              (Progress.quizAttempts progress);
          Progress.quizScores :=
            <[topicId := JS.jsonNumber (JS.mathMax
                           (JS.orZero (JS.getProp (Progress.quizScores progress) topicId))
                           score)]>
              (Progress.quizScores progress);
          Progress.lastActivity := now;
          Progress.completionRate :=
            (inject_Z (Z.of_nat (length captured')) / inject_Z 40 * inject_Z 100)%Q |}.
Proof. reflexivity. Qed.

(** The maps and lists read through [current] do not depend on the clock. *)
Lemma current_clock (now now' : Z) (store : Progress.Storage) :
  Progress.capturedTopics (Progress.current now store)
    = Progress.capturedTopics (Progress.current now' store) /\
  Progress.unlockedTopics (Progress.current now store)
    = Progress.unlockedTopics (Progress.current now' store) /\
  Progress.quizAttempts (Progress.current now store)
    = Progress.quizAttempts (Progress.current now' store) /\
  Progress.quizScores (Progress.current now store)
    = Progress.quizScores (Progress.current now' store).
Proof. destruct store; simpl; auto. Qed.

(** A plain entry is read as the number on record. *)
Lemma orZero_plain (obj : gmap string JS.Value) (T : string) :
  Spec.plainEntry obj T = true ->
  JS.orZero (JS.getProp obj T) = JS.Number (Spec.numberAt obj T).
Proof.
  unfold Spec.plainEntry, Spec.numberAt, JS.getProp.
  destruct (obj !! T) as [[n | member ones |]|]; cbn [JS.orZero]; intros Hplain.
  - destruct (Z.eqb_spec n 0) as [-> | _]; reflexivity.
  - discriminate Hplain.
  - reflexivity.
  - destruct (JS.arrIncludes JS.objectPrototypeMembers T); [discriminate Hplain | reflexivity].
Qed.

Lemma plusOne_exact (n : Z) :
  (- Spec.maxSafeCount <= n < Spec.maxSafeCount)%Z -> JS.plusOne n = (n + 1)%Z.
Proof.
  unfold Spec.maxSafeCount, JS.plusOne. intros [Hlo Hhi].
  destruct (Z.leb_spec (-9007199254740992) n); [|lia].
  destruct (Z.ltb_spec n 9007199254740992); [reflexivity | lia].
Qed.

(** An entry that has just been written with a number is plain. *)
Lemma plainEntry_insert (obj : gmap string JS.Value) (T U : string) (v : JS.Value) :
  Spec.plainEntry (<[U := v]> obj) T =
  if String.eqb U T
  then match v with JS.Text _ _ => false | _ => true end
  else Spec.plainEntry obj T.
Proof.
  unfold Spec.plainEntry, JS.getProp.
  destruct (String.eqb_spec U T) as [-> | Hne].
  - rewrite lookup_insert_eq. now destruct v.
  - now rewrite lookup_insert_ne by assumption.
Qed.

Lemma numberAt_insert (obj : gmap string JS.Value) (T U : string) (v : JS.Value) :
  Spec.numberAt (<[U := v]> obj) T =
  if String.eqb U T
  then match v with JS.Num n => n | _ => 0%Z end
  else Spec.numberAt obj T.
Proof.
  unfold Spec.numberAt.
  destruct (String.eqb_spec U T) as [-> | Hne].
  - now rewrite lookup_insert_eq.
  - now rewrite lookup_insert_ne by assumption.
Qed.

Lemma record_captured_incl (store : Progress.Storage) (c : Progress.Call) (now : Z) :
  incl (Progress.capturedTopics (Progress.current now store))
       (Progress.capturedTopics (Progress.current now (Progress.record store c))).
Proof.
  unfold Progress.record. rewrite recordQuizResult_stored. simpl.
  destruct (current_clock now (Progress.callTime c) store) as (-> & _).
  destruct (_ && _); [apply incl_appl|]; apply incl_refl.
Qed.

Lemma recordAll_captured_incl (calls : list Progress.Call) (store : Progress.Storage) (now : Z) :
  incl (Progress.capturedTopics (Progress.current now store))
       (Progress.capturedTopics (Progress.current now (Progress.recordAll calls store))).
Proof.
  revert store. induction calls as [|c calls IH]; intros store; simpl.
  - apply incl_refl.
  - eapply incl_tran; [apply (record_captured_incl store c now) | apply IH].
Qed.

(** After at least one call something is stored. *)
Lemma recordAll_Some (calls : list Progress.Call) (P : Progress.PersistedProgress) :
  exists P', Progress.recordAll calls (Some P) = Some P'.
Proof.
  revert P. induction calls as [|c calls IH]; intros P; simpl.
  - now exists P.
  - unfold Progress.record at 1. rewrite recordQuizResult_stored. apply IH.
Qed.

(** C5: capture is monotone. A topic captured in the stored record is still
    captured after any finite sequence of further [recordQuizResult] calls,
    whatever their topic ids, scores and [passed] flags. *)
Theorem recordQuizResult_capture_monotone
    (T : string) (P : Progress.PersistedProgress) (calls : list Progress.Call) :
  In T (Progress.capturedTopics P) ->
  exists P', Progress.recordAll calls (Some P) = Some P' /\
             In T (Progress.capturedTopics P').
Proof.
  intros Hin. destruct (recordAll_Some calls P) as [P' HP'].
  exists P'. split; [assumption|].
  pose proof (recordAll_captured_incl calls (Some P) 0 T) as H.
  rewrite HP' in H. simpl in H. auto.
Qed.

Lemma recordQuizResult_capture_monotone_witness :
  let P := Progress.mkProgress ["quadratic-equations"] ["quadratic-equations"]
             {["quadratic-equations" := JS.Num 1]} {["quadratic-equations" := JS.Num 75]} 0 (5 # 2) in
  In "quadratic-equations" (Progress.capturedTopics P) /\
  exists P',
    Progress.recordAll
      [Progress.mkCall 1 "quadratic-equations" 20 false;
       Progress.mkCall 2 "matrices" 90 true;
       Progress.mkCall 3 "quadratic-equations" 0 false] (Some P)
    = Some P' /\ In "quadratic-equations" (Progress.capturedTopics P').
Proof.
  split.
  - simpl. left. reflexivity.
  - apply (recordQuizResult_capture_monotone "quadratic-equations").
    simpl. left. reflexivity.
Defined.

(** One call on the attempts of [T]: a call naming [T] counts once, as
    long as the count is in the range where [+ 1] is exact. *)
Lemma record_attempts (T : string) (store : Progress.Storage) (c : Progress.Call) :
  Spec.plainEntry (Progress.quizAttempts (Progress.current 0 store)) T = true ->
  (Progress.callTopic c = T ->
   (- Spec.maxSafeCount <= Spec.attemptsOf T store < Spec.maxSafeCount)%Z) ->
  Spec.attemptsOf T (Progress.record store c) =
    (Spec.attemptsOf T store + if String.eqb (Progress.callTopic c) T then 1 else 0)%Z /\
  Spec.plainEntry (Progress.quizAttempts (Progress.current 0 (Progress.record store c))) T
    = true.
Proof.
  intros Hplain Hrange.
  unfold Spec.attemptsOf, Progress.record in *. rewrite recordQuizResult_stored.
  cbn [Progress.current Progress.loadProgress default from_option id Progress.quizAttempts].
  destruct (current_clock (Progress.callTime c) 0 store) as (_ & _ & -> & _).
  rewrite numberAt_insert, plainEntry_insert.
  destruct (String.eqb_spec (Progress.callTopic c) T) as [Heq | Hne].
  - rewrite Heq. rewrite (orZero_plain _ _ Hplain). cbn [JS.addOne].
    rewrite (plusOne_exact _ (Hrange Heq)). split; reflexivity.
  - split; [now rewrite Z.add_0_r | assumption].
Qed.

(** One call on the best score of [T]. *)
Lemma record_best (T : string) (store : Progress.Storage) (c : Progress.Call) :
  Spec.plainEntry (Progress.quizScores (Progress.current 0 store)) T = true ->
  Spec.bestOf T (Progress.record store c) =
    (if String.eqb (Progress.callTopic c) T
     then Z.max (Spec.bestOf T store) (Progress.callScore c)
     else Spec.bestOf T store) /\
  Spec.plainEntry (Progress.quizScores (Progress.current 0 (Progress.record store c))) T
    = true.
Proof.
  intros Hplain.
  unfold Spec.bestOf, Progress.record in *. rewrite recordQuizResult_stored.
  cbn [Progress.current Progress.loadProgress default from_option id Progress.quizScores].
  destruct (current_clock (Progress.callTime c) 0 store) as (_ & _ & _ & ->).
  rewrite numberAt_insert, plainEntry_insert.
  destruct (String.eqb_spec (Progress.callTopic c) T) as [Heq | Hne].
  - rewrite Heq. rewrite (orZero_plain _ _ Hplain). split; reflexivity.
  - split; [reflexivity | assumption].
Qed.

Lemma recordAll_attempts (T : string) (calls : list Progress.Call) (store : Progress.Storage) :
  Spec.plainEntry (Progress.quizAttempts (Progress.current 0 store)) T = true ->
  (- Spec.maxSafeCount <= Spec.attemptsOf T store)%Z ->
  (Spec.attemptsOf T store + Z.of_nat (Spec.callsFor T calls) <= Spec.maxSafeCount)%Z ->
  Spec.attemptsOf T (Progress.recordAll calls store) =
  (Spec.attemptsOf T store + Z.of_nat (Spec.callsFor T calls))%Z.
Proof.
  revert store. induction calls as [|c calls IH]; intros store Hplain Hlo Hhi.
  - unfold Spec.callsFor. cbn. lia.
  - cbn [Progress.recordAll fold_left].
    change (fold_left Progress.record calls (Progress.record store c))
      with (Progress.recordAll calls (Progress.record store c)).
    unfold Spec.callsFor in *. cbn [List.filter] in *.
    destruct (String.eqb_spec (Progress.callTopic c) T) as [Heq | Hne].
    + cbn [length] in *.
      destruct (record_attempts T store c Hplain) as [Hstep Hplain']; [lia|].
      rewrite Heq, String.eqb_refl in Hstep.
      rewrite IH; [lia | assumption | lia | lia].
    + destruct (record_attempts T store c Hplain) as [Hstep Hplain']; [congruence|].
      destruct (String.eqb_spec (Progress.callTopic c) T) as [|_]; [congruence|].
      rewrite IH; [lia | assumption | lia | lia].
Qed.

Lemma recordAll_best (T : string) (calls : list Progress.Call) (store : Progress.Storage) :
  Spec.plainEntry (Progress.quizScores (Progress.current 0 store)) T = true ->
  Spec.bestOf T (Progress.recordAll calls store) =
  fold_left Z.max (Spec.scoresFor T calls) (Spec.bestOf T store).
Proof.
  revert store. induction calls as [|c calls IH]; intros store Hplain; [reflexivity|].
  cbn [Progress.recordAll fold_left].
  change (fold_left Progress.record calls (Progress.record store c))
    with (Progress.recordAll calls (Progress.record store c)).
  destruct (record_best T store c Hplain) as [Hstep Hplain'].
  rewrite (IH _ Hplain'), Hstep. unfold Spec.scoresFor. cbn [List.filter].
  now destruct (String.eqb (Progress.callTopic c) T).
Qed.

Lemma fold_max_ge (scores : list Z) (b : Z) : (b <= fold_left Z.max scores b)%Z.
Proof.
  revert b. induction scores as [|x scores IH]; intros b; cbn [fold_left]; [lia|].
  etransitivity; [|apply IH]. lia.
Qed.

(** C6, as stated, fails in two places. When the count on record is 2^53,
    the sum [count + 1] is not representable and the call stores 2^53 again.
    And for a topic id that names a member of [Object.prototype] and has no
    entry yet, the read yields the inherited member instead of [undefined]:
    the call stores a text as the count and [null] as the score. *)
Lemma recordQuizResult_attempts_not_exact :
  let full := Some (Progress.mkProgress [] ["quadratic-equations"]
                      {["quadratic-equations" := JS.Num 9007199254740992]}
                      {["quadratic-equations" := JS.Num 75]} 0 0) in
  ~ Spec.countsExactly full 1 "quadratic-equations" 80 true /\
  ~ Spec.countsExactly None 1 "constructor" 80 true.
Proof.
  split; intros (P' & Heq & Ha & _); rewrite recordQuizResult_stored in Heq;
    injection Heq as <-; cbn [Progress.quizAttempts] in Ha;
    rewrite lookup_insert_eq in Ha; vm_compute in Ha; discriminate Ha.
Qed.

(** C6 (amended): for a topic [T] whose entries are read as plain numbers
    (own numbers, or absent with [T] not naming a member of
    [Object.prototype]) and whose count stays in the range where [+ 1] is
    exact, one call [recordQuizResult(T, score, passed)] stores the prior
    attempt count (0 if absent) plus 1 and the maximum of the prior best
    (0 if absent) and [score]. Over a sequence of calls the count of [T]
    grows by the number of calls that name [T] (so it is N after N calls
    when it started absent), and the best score of [T] never decreases. *)
Theorem recordQuizResult_attempts_scores
    (store : Progress.Storage) (T : string) (calls : list Progress.Call) :
  Spec.plainTopic T store = true ->
  (- Spec.maxSafeCount <= Spec.attemptsOf T store)%Z ->
  (Spec.attemptsOf T store + Z.of_nat (Spec.callsFor T calls) < Spec.maxSafeCount)%Z ->
  (forall (now : Z) (score : Z) (passed : bool),
     Spec.countsExactly store now T score passed) /\
  Spec.attemptsOf T (Progress.recordAll calls store)
    = (Spec.attemptsOf T store + Z.of_nat (Spec.callsFor T calls))%Z /\
  (Spec.bestOf T store <= Spec.bestOf T (Progress.recordAll calls store))%Z.
Proof.
  intros Hplain Hlo Hhi.
  apply andb_true_iff in Hplain as [Ha Hs]. split; [|split].
  - intros now score passed. eexists. split; [apply recordQuizResult_stored|].
    cbn [Progress.quizAttempts Progress.quizScores].
    destruct (current_clock now 0 store) as (_ & _ & -> & ->).
    rewrite !lookup_insert_eq, (orZero_plain _ _ Ha), (orZero_plain _ _ Hs).
    cbn [JS.addOne JS.mathMax JS.jsonNumber].
    rewrite plusOne_exact; [split; reflexivity|].
    unfold Spec.attemptsOf in *. lia.
  - apply recordAll_attempts; [assumption | assumption | lia].
  - rewrite (recordAll_best T calls store Hs). apply fold_max_ge.
Qed.

Lemma recordQuizResult_attempts_scores_witness :
  let calls := [Progress.mkCall 1 "quadratic-equations" 50 false;
                Progress.mkCall 2 "constructor" 10 false;
                Progress.mkCall 3 "quadratic-equations" 75 true;
                Progress.mkCall 4 "quadratic-equations" 25 false] in
  Spec.plainTopic "quadratic-equations" None = true /\
  Spec.attemptsOf "quadratic-equations" (Progress.recordAll calls None) = 3%Z /\
  (0 <= Spec.bestOf "quadratic-equations" (Progress.recordAll calls None))%Z.
Proof.
  split; [reflexivity|].
  destruct (recordQuizResult_attempts_scores None "quadratic-equations"
              [Progress.mkCall 1 "quadratic-equations" 50 false;
               Progress.mkCall 2 "constructor" 10 false;
               Progress.mkCall 3 "quadratic-equations" 75 true;
               Progress.mkCall 4 "quadratic-equations" 25 false])
    as (_ & Hcount & Hbest).
  - reflexivity.
  - vm_compute. discriminate.
  - vm_compute. reflexivity.
  - split; [exact Hcount | exact Hbest].
Defined.

(** Three attempts on a fresh store: the count is 3, the best score 75. *)
Example recordQuizResult_three_attempts :
  let st := Progress.recordAll
              [Progress.mkCall 1 "quadratic-equations" 50 false;
               Progress.mkCall 2 "quadratic-equations" 75 true;
               Progress.mkCall 3 "quadratic-equations" 25 false] None in
  Spec.attemptsOf "quadratic-equations" st = 3%Z /\
  Spec.bestOf "quadratic-equations" st = 75%Z /\
  Progress.capturedTopics (Progress.current 0 st) = ["quadratic-equations"].
Proof. vm_compute. auto. Qed.

(** C10: [recordQuizResult] leaves [unlockedTopics] as it was; the update it
    writes has no such key and the spread keeps the prior value. *)
Theorem recordQuizResult_keeps_unlockedTopics
    (now : Z) (topicId : string) (score : Z) (passed : bool)
    (store : Progress.Storage) :
  exists P',
    Progress.recordQuizResult now topicId score passed store = Some P' /\
    Progress.unlockedTopics P' = Progress.unlockedTopics (Progress.current now store).
Proof. eexists. split; [apply recordQuizResult_stored | reflexivity]. Qed.

(** ** The completion rate *)

(** What every call stores: the size of the captured list over the
    constant 40, times 100. *)
Lemma recordQuizResult_completionRate (now : Z) (topicId : string) (score : Z)
    (passed : bool) (store : Progress.Storage) :
  exists P',
    Progress.recordQuizResult now topicId score passed store = Some P' /\
    Progress.completionRate P' =
    (inject_Z (Z.of_nat (length (Progress.capturedTopics P')))
     / inject_Z Progress.totalTopics * inject_Z 100)%Q.
Proof. eexists. split; [apply recordQuizResult_stored | reflexivity]. Qed.

(** C2 at a concrete call: passing the first quiz on a fresh store records
    one captured topic out of the 81 of the store, and the stored rate is
    1/40*100 = 5/2 instead of 1/81*100. *)
Theorem recordQuizResult_completionRate_not_live (now : Z) :
  exists P',
    Progress.recordQuizResult now "quadratic-equations" 75 true None = Some P' /\
    Progress.capturedTopics P' = ["quadratic-equations"] /\
    length Topics.GALAXY_TOPICS = 81%nat /\
    (Progress.completionRate P' == 5 # 2)%Q /\
    (Spec.liveCompletionRate (Progress.capturedTopics P') == 100 # 81)%Q /\
    ~ (Progress.completionRate P' == Spec.liveCompletionRate (Progress.capturedTopics P'))%Q.
Proof.
  eexists. split; [apply recordQuizResult_stored|].
  repeat split; try reflexivity.
  vm_compute. discriminate.
Qed.

(** ** Captured topics and unlocked topics *)

Lemma setAdd_In (set : list string) (x y : string) :
  In y (JS.setAdd set x) <-> In y set \/ y = x.
Proof.
  unfold JS.setAdd. destruct (JS.arrIncludes set x) eqn:E.
  - apply arrIncludes_In in E. split; [auto|]. intros [H | ->]; assumption.
  - rewrite in_app_iff. simpl. intuition.
Qed.

Lemma addAll_In (matched topicIds : list string) (y : string) :
  In y (Topics.addAll matched topicIds) <-> In y matched \/ In y topicIds.
Proof.
  unfold Topics.addAll. revert matched.
  induction topicIds as [|t ts IH]; intros matched; simpl.
  - tauto.
  - rewrite IH, setAdd_In. intuition.
Qed.

Lemma dedupe_In (arr : list string) (y : string) :
  In y (JS.dedupe arr) <-> In y arr.
Proof.
  unfold JS.dedupe. change (fold_left JS.setAdd arr []) with (Topics.addAll [] arr).
  rewrite addAll_In. simpl. tauto.
Qed.

Lemma unlockDiscovered_incl (query : string) (capturedTopics unlockedTopics : list string) :
  incl unlockedTopics (Index.unlockDiscovered query capturedTopics unlockedTopics).
Proof.
  unfold Index.unlockDiscovered.
  destruct (Index.newlyUnlockable query capturedTopics unlockedTopics) as [|d ds].
  - apply incl_refl.
  - intros y Hy. apply dedupe_In, in_app_iff. now left.
Qed.

(** The invariant does not look at the clock. *)
Lemma capturedAreUnlocked_clock (now now' : Z) (store : Progress.Storage) :
  Spec.capturedAreUnlocked (Progress.current now store) ->
  Spec.capturedAreUnlocked (Progress.current now' store).
Proof. destruct store; simpl; auto. Qed.

(** The two lists of the record after one call, read at any clock. *)
Lemma recordQuizResult_lists (now now' : Z) (topicId : string) (score : Z) (passed : bool)
    (store : Progress.Storage) :
  let P := Progress.current now store in
  let P' := Progress.current now' (Progress.recordQuizResult now topicId score passed store) in
  Progress.capturedTopics P' =
    (if passed && negb (JS.arrIncludes (Progress.capturedTopics P) topicId)
     then Progress.capturedTopics P ++ [topicId]
     else Progress.capturedTopics P) /\
  Progress.unlockedTopics P' = Progress.unlockedTopics P.
Proof. rewrite recordQuizResult_stored. split; reflexivity. Qed.

(** What the saving effect leaves in the store: the lists of the render. *)
Lemma saveEffect_lists (now now' : Z) (st : Page.State) (store : Progress.Storage) :
  Progress.capturedTopics (Progress.current now' (Page.saveEffect now st store))
    = Page.capturedTopics st /\
  Progress.unlockedTopics (Progress.current now' (Page.saveEffect now st store))
    = Page.unlockedTopics st.
Proof. split; reflexivity. Qed.

(** What the loading effect puts in the state: the lists of the record. *)
Lemma loaded_lists (now : Z) (store : Progress.Storage) :
  Page.capturedTopics (Page.loaded store)
    = Progress.capturedTopics (Progress.current now store) /\
  Page.unlockedTopics (Page.loaded store)
    = Progress.unlockedTopics (Progress.current now store).
Proof. destruct store; split; reflexivity. Qed.

Lemma page_isUnlocked_mono (topicId : string) (st st' : Page.State) :
  incl (Page.capturedTopics st) (Page.capturedTopics st') ->
  incl (Page.unlockedTopics st) (Page.unlockedTopics st') ->
  Page.isUnlocked topicId st = true -> Page.isUnlocked topicId st' = true.
Proof.
  intros Hc Hu. unfold Page.isUnlocked. rewrite !orb_true_iff.
  intros [H | H]; [left | right].
  - now apply (shouldUnlockTopic_mono _ _ _ Hc).
  - now apply (arrIncludes_mono _ _ _ Hu).
Qed.

(** A record and a state with the same lists show the same topics unlocked. *)
Lemma isUnlocked_same_lists (T : string) (P : Progress.PersistedProgress) (st : Page.State) :
  Progress.capturedTopics P = Page.capturedTopics st ->
  Progress.unlockedTopics P = Page.unlockedTopics st ->
  Index.isUnlocked T P = Page.isUnlocked T st.
Proof. unfold Index.isUnlocked, Page.isUnlocked. now intros -> ->. Qed.

Lemma same_lists_consistent (P : Progress.PersistedProgress) (st : Page.State) :
  Progress.capturedTopics P = Page.capturedTopics st ->
  Progress.unlockedTopics P = Page.unlockedTopics st ->
  Spec.capturedAreUnlocked P <-> Spec.pageCapturedAreUnlocked st.
Proof.
  intros Hc Hu. unfold Spec.capturedAreUnlocked, Spec.pageCapturedAreUnlocked.
  split; intros H T HT.
  - rewrite <- (isUnlocked_same_lists T P st Hc Hu). apply H. now rewrite Hc.
  - rewrite (isUnlocked_same_lists T P st Hc Hu). apply H. now rewrite <- Hc.
Qed.

(** After a state change the store holds the lists of the page. *)
Lemma rerender_consistent (now now' : Z) (st : Page.State) (w : Page.World) :
  Spec.pageCapturedAreUnlocked st ->
  Spec.capturedAreUnlocked (Progress.current now' (Page.store (Page.rerender now st w))) /\
  Spec.pageCapturedAreUnlocked (Page.page (Page.rerender now st w)).
Proof.
  intros Hst. split; [|exact Hst].
  destruct (saveEffect_lists now now' st (Page.store w)) as [Hc Hu].
  exact (proj2 (same_lists_consistent _ st Hc Hu) Hst).
Qed.

Lemma mount_consistent (now now' : Z) (store : Progress.Storage) :
  Spec.capturedAreUnlocked (Progress.current now store) ->
  Spec.capturedAreUnlocked (Progress.current now' (Page.store (Page.mount now store))) /\
  Spec.pageCapturedAreUnlocked (Page.page (Page.mount now store)).
Proof.
  intros Hinv.
  destruct (loaded_lists now store) as [Hc Hu].
  assert (Hst : Spec.pageCapturedAreUnlocked (Page.loaded store))
    by exact (proj1 (same_lists_consistent _ _ (eq_sym Hc) (eq_sym Hu)) Hinv).
  split; [|exact Hst].
  destruct (saveEffect_lists now now' (Page.loaded store)
              (Page.saveEffect now (Page.mkState [] []) store)) as [Hc' Hu'].
  exact (proj2 (same_lists_consistent _ _ Hc' Hu') Hst).
Qed.

(** An admissible operation keeps every captured topic unlocked, in the
    store and on the page. *)
Lemma step_capturedAreUnlocked (w : Page.World) (e : Z * Page.Op) (now' : Z) :
  Spec.admissible w e = true ->
  Spec.capturedAreUnlocked (Progress.current (fst e) (Page.store w)) ->
  Spec.pageCapturedAreUnlocked (Page.page w) ->
  Spec.capturedAreUnlocked (Progress.current now' (Page.store (Page.step w e))) /\
  Spec.pageCapturedAreUnlocked (Page.page (Page.step w e)).
Proof.
  destruct e as [now [topicId score | userQuery | | topicId score passed | updates]];
    cbn [Spec.admissible Page.step fst]; intros Hadm Hinv Hpage; [| | | |discriminate].
  - unfold Page.handleLearningComplete.
    destruct (60 <=? score)%Z; cbn [andb implb] in *;
      [|split; [exact (capturedAreUnlocked_clock now now' _ Hinv) | exact Hpage]].
    destruct (JS.arrIncludes (Page.capturedTopics (Page.page w)) topicId); cbn [negb];
      [split; [exact (capturedAreUnlocked_clock now now' _ Hinv) | exact Hpage]|].
    apply rerender_consistent. intros T HT.
    cbn [Page.capturedTopics] in HT.
    assert (Hold : Page.isUnlocked T (Page.page w) = true).
    { apply in_app_iff in HT as [HT | [<- | []]]; [now apply Hpage | assumption]. }
    revert Hold. apply page_isUnlocked_mono;
      [apply incl_appl |]; apply incl_refl.
  - unfold Page.handleQuerySubmit.
    destruct (String.eqb (JS.trim userQuery) EmptyString);
      [split; [exact (capturedAreUnlocked_clock now now' _ Hinv) | exact Hpage]|].
    destruct (Index.newlyUnlockable _ _ _) as [|d ds];
      [split; [exact (capturedAreUnlocked_clock now now' _ Hinv) | exact Hpage]|].
    apply rerender_consistent. intros T HT.
    cbn [Page.capturedTopics] in HT.
    generalize (Hpage T HT). apply page_isUnlocked_mono; [apply incl_refl|].
    intros y Hy. cbn [Page.unlockedTopics]. apply dedupe_In, in_app_iff. now left.
  - apply mount_consistent. exact Hinv.
  - cbn [Page.store Page.page]. split; [|exact Hpage].
    destruct (recordQuizResult_lists now now' topicId score passed (Page.store w))
      as [Hc Hu].
    set (P := Progress.current now (Page.store w)) in *.
    set (P' := Progress.current now' _) in *.
    assert (Hold : forall U, Index.isUnlocked U P = true -> Index.isUnlocked U P' = true).
    { intros U. apply isUnlocked_mono; [rewrite Hc | rewrite Hu; apply incl_refl].
      destruct (_ && _); [apply incl_appl|]; apply incl_refl. }
    intros T HT. apply Hold. rewrite Hc in HT.
    destruct passed; cbn [andb implb] in HT, Hadm; [|now apply Hinv].
    destruct (JS.arrIncludes (Progress.capturedTopics P) topicId); cbn [negb] in HT.
    + now apply Hinv.
    + apply in_app_iff in HT as [HT | [<- | []]]; [now apply Hinv | assumption].
Qed.

Lemma run_capturedAreUnlocked (ops : list (Z * Page.Op)) (w : Page.World) (now : Z) :
  Spec.disciplined ops w = true ->
  Spec.capturedAreUnlocked (Progress.current now (Page.store w)) ->
  Spec.pageCapturedAreUnlocked (Page.page w) ->
  Spec.capturedAreUnlocked (Progress.current now (Page.store (Page.run ops w))) /\
  Spec.pageCapturedAreUnlocked (Page.page (Page.run ops w)).
Proof.
  revert w. induction ops as [|e ops IH]; intros w; cbn [Spec.disciplined Page.run fold_left];
    [auto|].
  rewrite andb_true_iff. intros [Hadm Hrest] Hinv Hpage.
  destruct (step_capturedAreUnlocked w e now Hadm
              (capturedAreUnlocked_clock now (fst e) _ Hinv) Hpage) as [Hinv' Hpage'].
  exact (IH (Page.step w e) Hrest Hinv' Hpage').
Qed.

(** C3, as stated, fails. On a freshly mounted page, finish the session of
    the root, then the session of its neighbour [quadratic-formula], which
    the first capture unlocked: the record the page saves holds the
    neighbour as captured, it is not the root, and [unlockedTopics] still
    holds the root only. Every step of this run is admissible. *)
Lemma captured_not_within_unlockedTopics :
  let ops := [(1%Z, Page.LearningComplete "quadratic-equations" 75);
              (2%Z, Page.LearningComplete "quadratic-formula" 80)] in
  Spec.disciplined ops (Page.mount 0 None) = true /\
  ~ Spec.capturedWithinUnlocked
      (Progress.current 0 (Page.store (Page.run ops (Page.mount 0 None)))).
Proof.
  split; [vm_compute; reflexivity|].
  intros H. specialize (H "quadratic-formula").
  assert (Hin : In "quadratic-formula"
            (Progress.capturedTopics (Progress.current 0 (Page.store (Page.run
               [(1%Z, Page.LearningComplete "quadratic-equations" 75);
                (2%Z, Page.LearningComplete "quadratic-formula" 80)]
               (Page.mount 0 None))))))
    by (vm_compute; auto).
  specialize (H Hin). vm_compute in H.
  destruct H as [H | [H | []]]; discriminate H.
Qed.

(** C3 (amended): take a page mounted on the fresh store and any run of its
    two handlers, reloads, and calls of [recordQuizResult] made beside it, in
    which a capture is only made for a topic that is unlocked at that moment
    (for the page by its state, for [recordQuizResult] by the stored
    record). Then in the stored record, and in the state of the page, every
    captured topic is reported unlocked by the recomputation pass: it is in
    [unlockedTopics], or carries the static flag, or has a captured
    neighbour. *)
Theorem captured_topics_are_unlocked (ops : list (Z * Page.Op)) (now0 now : Z) :
  Spec.disciplined ops (Page.mount now0 None) = true ->
  Spec.capturedAreUnlocked
    (Progress.current now (Page.store (Page.run ops (Page.mount now0 None)))) /\
  Spec.pageCapturedAreUnlocked (Page.page (Page.run ops (Page.mount now0 None))).
Proof.
  intros Hd.
  assert (Hfresh : Spec.capturedAreUnlocked (Progress.current now0 None))
    by (intros T []).
  destruct (mount_consistent now0 now None Hfresh) as [Hinv Hpage].
  exact (run_capturedAreUnlocked ops _ now Hd Hinv Hpage).
Qed.

Lemma captured_topics_are_unlocked_witness :
  let ops := [(1%Z, Page.QuerySubmit "what is the pythagorean theorem");
              (2%Z, Page.LearningComplete "quadratic-equations" 75);
              (3%Z, Page.RecordQuizResult "quadratic-formula" 80 true);
              (4%Z, Page.LearningComplete "triangles" 100)] in
  Spec.disciplined ops (Page.mount 0 None) = true /\
  Progress.capturedTopics
    (Progress.current 5 (Page.store (Page.run ops (Page.mount 0 None))))
    = ["quadratic-equations"; "triangles"] /\
  Spec.capturedAreUnlocked
    (Progress.current 5 (Page.store (Page.run ops (Page.mount 0 None)))).
Proof.
  split; [vm_compute; reflexivity|]. split; [vm_compute; reflexivity|].
  apply (captured_topics_are_unlocked
           [(1%Z, Page.QuerySubmit "what is the pythagorean theorem");
            (2%Z, Page.LearningComplete "quadratic-equations" 75);
            (3%Z, Page.RecordQuizResult "quadratic-formula" 80 true);
            (4%Z, Page.LearningComplete "triangles" 100)] 0 5).
  vm_compute. reflexivity.
Defined.

(** ** The keyword matcher *)

(** Whatever the exact pass adds comes from a keyword of the table that the
    normalized query contains. *)
Lemma exactPass_In (queryWords : string) (matched : list string) (y : string) :
  In y (Topics.exactPass queryWords matched) ->
  In y matched \/
  exists keyword topicIds,
    In (keyword, topicIds) Topics.KEYWORD_TOPIC_MAP /\
    JS.includes queryWords keyword = true /\ In y topicIds.
Proof.
  unfold Topics.exactPass. generalize Topics.KEYWORD_TOPIC_MAP as table.
  intros table. revert matched.
  induction table as [|[keyword topicIds] table IH]; intros matched; simpl.
  - auto.
  - intros Hy. apply IH in Hy as [Hy | (k & ids & Hin & Hinc & Hids)].
    + destruct (JS.includes queryWords keyword) eqn:E; [|now left].
      apply addAll_In in Hy as [Hy | Hy]; [now left|].
      right. exists keyword, topicIds. auto.
    + right. exists k, ids. auto.
Qed.

(** C7: when the exact-substring pass finds at least one topic id, the
    result of the matcher is the result of that pass: the partial-token
    fallback is not run and adds nothing, so every returned id belongs to a
    keyword that the normalized query contains as a substring. *)
Theorem getTopicsFromQuery_exact_only (query : string) :
  Topics.exactPass (Spec.normalize query) [] <> [] ->
  Topics.getTopicsFromQuery query = Topics.exactPass (Spec.normalize query) [] /\
  forall topicId,
    In topicId (Topics.getTopicsFromQuery query) ->
    exists keyword topicIds,
      In (keyword, topicIds) Topics.KEYWORD_TOPIC_MAP /\
      JS.includes (Spec.normalize query) keyword = true /\ In topicId topicIds.
Proof.
  intros Hne.
  assert (Heq : Topics.getTopicsFromQuery query
                = Topics.exactPass (Spec.normalize query) []).
  { unfold Topics.getTopicsFromQuery, Spec.normalize in *.
    destruct (Topics.exactPass (JS.trim (JS.toLowerCase query)) []); [congruence | reflexivity]. }
  split; [assumption|].
  intros topicId Hin. rewrite Heq in Hin.
  apply exactPass_In in Hin as [[] | H]. exact H.
Qed.

(** The complementary case: with an empty exact pass the answer is the
    fallback's. *)
Lemma getTopicsFromQuery_fallback (query : string) :
  Topics.exactPass (Spec.normalize query) [] = [] ->
  Topics.getTopicsFromQuery query = Topics.partialPass (Spec.normalize query) [].
Proof.
  unfold Topics.getTopicsFromQuery, Spec.normalize. now intros ->.
Qed.

(** For the query [integration] the fallback alone would also reach
    [applications-integrals] (through the keywords [area integration] and
    [volume integration]); the exact pass matched, so that id is absent. *)
Lemma getTopicsFromQuery_exact_only_witness :
  Topics.exactPass (Spec.normalize "integration") [] <> [] /\
  Topics.getTopicsFromQuery "integration" = ["integrals"; "derivatives"] /\
  In "applications-integrals" (Topics.partialPass (Spec.normalize "integration") []) /\
  ~ In "applications-integrals" (Topics.getTopicsFromQuery "integration").
Proof.
  assert (Hne : Topics.exactPass (Spec.normalize "integration") [] <> [])
    by (vm_compute; discriminate).
  split; [exact Hne|].
  destruct (getTopicsFromQuery_exact_only "integration" Hne) as [Heq _].
  rewrite Heq. split; [vm_compute; reflexivity|]. split.
  - vm_compute. auto.
  - apply arrIncludes_false. vm_compute. reflexivity.
Defined.

Lemma lower_ascii_space (c : ascii) : JS.isSpace c = true -> JS.lower_ascii c = c.
Proof.
  unfold JS.isSpace, JS.lower_ascii.
  destruct (Nat.leb_spec 65 (nat_of_ascii c)); [|reflexivity].
  destruct (Nat.leb_spec (nat_of_ascii c) 90); [|reflexivity].
  destruct (Nat.leb_spec 9 (nat_of_ascii c)); [|lia].
  destruct (Nat.leb_spec (nat_of_ascii c) 13); [lia|].
  destruct (Nat.eqb_spec (nat_of_ascii c) 32); [lia | discriminate].
Qed.

Lemma toLowerCase_space (s : string) :
  Spec.allSpace s = true -> JS.toLowerCase s = s.
Proof.
  induction s as [|c s IH]; simpl; [reflexivity|].
  rewrite andb_true_iff. intros [Hc Hs]. now rewrite lower_ascii_space, IH.
Qed.

Lemma toLowerCase_app (a b : string) :
  JS.toLowerCase (a +:+ b) = JS.toLowerCase a +:+ JS.toLowerCase b.
Proof. induction a as [|c a IH]; simpl; [reflexivity | now rewrite IH]. Qed.

Lemma trimStart_space (s : string) : Spec.allSpace s = true -> JS.trimStart s = EmptyString.
Proof.
  induction s as [|c s IH]; simpl; [reflexivity|].
  rewrite andb_true_iff. intros [-> Hs]. auto.
Qed.

Lemma trimEnd_space (s : string) : Spec.allSpace s = true -> JS.trimEnd s = EmptyString.
Proof.
  induction s as [|c s IH]; simpl; [reflexivity|].
  rewrite andb_true_iff. intros [-> Hs]. now rewrite IH.
Qed.

Lemma trimStart_app_space (pre s : string) :
  Spec.allSpace pre = true -> JS.trimStart (pre +:+ s) = JS.trimStart s.
Proof.
  induction pre as [|c pre IH]; simpl; [reflexivity|].
  rewrite andb_true_iff. intros [-> Hs]. auto.
Qed.

Lemma trimEnd_app_space (s post : string) :
  Spec.allSpace post = true -> JS.trimEnd (s +:+ post) = JS.trimEnd s.
Proof.
  intros Hpost. induction s as [|c s IH]; simpl.
  - now apply trimEnd_space.
  - now rewrite IH.
Qed.

(** Whitespace around a string does not survive [trim]. *)
Lemma trim_padded (pre s post : string) :
  Spec.allSpace pre = true -> Spec.allSpace post = true ->
  JS.trim (pre +:+ s +:+ post) = JS.trim s.
Proof.
  intros Hpre Hpost. unfold JS.trim. rewrite trimStart_app_space by assumption.
  induction s as [|c s IH].
  - simpl. now rewrite trimStart_space.
  - change (String c s +:+ post) with (String c (s +:+ post)). cbn [JS.trimStart].
    destruct (JS.isSpace c); [exact IH|].
    change (String c (s +:+ post)) with (String c s +:+ post).
    now apply trimEnd_app_space.
Qed.

(** C9: the matcher is a function of the query string alone, and of its
    normalized form only: whitespace before and after the query and the case
    of its letters do not change the answer. *)
Theorem getTopicsFromQuery_insensitive (pre query post query' : string) :
  Spec.allSpace pre = true ->
  Spec.allSpace post = true ->
  JS.toLowerCase query = JS.toLowerCase query' ->
  Topics.getTopicsFromQuery (pre +:+ query +:+ post) = Topics.getTopicsFromQuery query'.
Proof.
  intros Hpre Hpost Hcase.
  assert (Hnorm : Spec.normalize (pre +:+ query +:+ post) = Spec.normalize query').
  { unfold Spec.normalize. rewrite !toLowerCase_app, Hcase.
    rewrite (toLowerCase_space pre), (toLowerCase_space post) by assumption.
    now apply trim_padded. }
  unfold Topics.getTopicsFromQuery. fold (Spec.normalize (pre +:+ query +:+ post)).
  fold (Spec.normalize query'). now rewrite Hnorm.
Qed.

Lemma getTopicsFromQuery_insensitive_witness :
  Spec.allSpace "  " = true /\ Spec.allSpace " " = true /\
  JS.toLowerCase "QUADRATIC Formula" = JS.toLowerCase "quadratic formula" /\
  Topics.getTopicsFromQuery "  QUADRATIC Formula " =
  Topics.getTopicsFromQuery "quadratic formula".
Proof.
  split; [reflexivity|]. split; [reflexivity|]. split; [reflexivity|].
  apply (getTopicsFromQuery_insensitive "  " "QUADRATIC Formula" " " "quadratic formula");
    reflexivity.
Defined.

(** * Further properties of the sources *)

(** ** The topic store, continued *)

Lemma getTopicById_Some (topicId : string) (topic : Topics.Topic) :
  Topics.getTopicById topicId = Some topic ->
  In topic Topics.GALAXY_TOPICS /\ Topics.id topic = topicId.
Proof.
  unfold Topics.getTopicById. intros H. apply find_some in H as [Hin Heq].
  split; [assumption | now apply String.eqb_eq].
Qed.

(** The lookup succeeds exactly on the ids of the store. *)
Lemma getTopicById_stored_id (topicId : string) :
  JS.arrIncludes (map Topics.id Topics.GALAXY_TOPICS) topicId = true <->
  exists topic, Topics.getTopicById topicId = Some topic.
Proof.
  split.
  - intros H. apply arrIncludes_In in H.
    destruct (Topics.getTopicById topicId) as [topic|] eqn:E; [now exists topic|].
    exfalso. apply in_map_iff in H as (t & Hid & Hin).
    unfold Topics.getTopicById in E.
    apply (find_none _ _ E) in Hin. rewrite Hid, String.eqb_refl in Hin. discriminate.
  - intros [topic H]. apply getTopicById_Some in H as [Hin <-].
    apply arrIncludes_In. now apply in_map.
Qed.

(** [getConnectedTopics]: the neighbours of a stored topic are resolved in
    the order of its adjacency list, an id that no node carries is dropped
    silently, and every node returned is a node of the store. *)
Theorem getConnectedTopics_resolves (topicId : string) (topic : Topics.Topic) :
  Topics.getTopicById topicId = Some topic ->
  map Topics.id (Topics.getConnectedTopics topicId) =
    List.filter (JS.arrIncludes (map Topics.id Topics.GALAXY_TOPICS))
                (Topics.connectedTopics topic) /\
  Forall (fun t => In t Topics.GALAXY_TOPICS) (Topics.getConnectedTopics topicId).
Proof.
  intros Hfound. unfold Topics.getConnectedTopics. rewrite Hfound.
  induction (Topics.connectedTopics topic) as [|c cs [IHids IHin]]; [now split|].
  cbn [omap list_omap List.filter].
  destruct (Topics.getTopicById c) as [t|] eqn:E.
  - assert (Hc : JS.arrIncludes (map Topics.id Topics.GALAXY_TOPICS) c = true)
      by (apply getTopicById_stored_id; now exists t).
    apply getTopicById_Some in E as [Hin Hid].
    rewrite Hc. cbn [map]. rewrite Hid. split; [now f_equal | now constructor].
  - destruct (JS.arrIncludes (map Topics.id Topics.GALAXY_TOPICS) c) eqn:Hc.
    + apply getTopicById_stored_id in Hc as [t Ht]. congruence.
    + now split.
Qed.

(** [limits] lists [calculus-overview], which no node carries. *)
Lemma getConnectedTopics_resolves_witness :
  Topics.getTopicById "limits" =
    Some (Topics.mkTopic "limits" Topics.intermediate
            ["derivatives"; "calculus-overview"; "functions-analysis"] false false) /\
  map Topics.id (Topics.getConnectedTopics "limits") = ["derivatives"; "functions-analysis"].
Proof.
  split; [reflexivity|].
  destruct (getConnectedTopics_resolves "limits"
              (Topics.mkTopic "limits" Topics.intermediate
                 ["derivatives"; "calculus-overview"; "functions-analysis"] false false)
              eq_refl) as [Hids _].
  rewrite Hids. vm_compute. reflexivity.
Defined.

(** With nothing captured, the unlock check reports exactly one topic
    unlocked, [quadratic-equations]; the same holds for the unlocked flag the
    recomputation pass derives from the default progress record. *)
Theorem only_root_unlocked_by_default (topicId : string) (now : Z) :
  (Topics.shouldUnlockTopic topicId [] = true <-> topicId = "quadratic-equations") /\
  (Index.isUnlocked topicId (Progress.getDefaultProgress now) = true
   <-> topicId = "quadratic-equations").
Proof.
  assert (Hcheck : Topics.shouldUnlockTopic topicId [] = true
                   <-> topicId = "quadratic-equations").
  { split; [|intros ->; reflexivity].
    unfold Topics.shouldUnlockTopic.
    destruct (Topics.getTopicById topicId) as [topic|] eqn:E; [|discriminate].
    apply getTopicById_Some in E as [Hin <-].
    assert (Hflag : forallb (fun t => implb (Topics.unlocked t)
                                        (String.eqb (Topics.id t) "quadratic-equations"))
                            Topics.GALAXY_TOPICS = true) by (vm_compute; reflexivity).
    rewrite forallb_forall in Hflag. specialize (Hflag topic Hin).
    destruct (Topics.unlocked topic).
    - intros _. now apply String.eqb_eq.
    - intros H. apply existsb_exists in H as (c & _ & Hc). discriminate Hc. }
  split; [exact Hcheck|].
  unfold Index.isUnlocked. simpl. rewrite orb_true_iff, Hcheck.
  unfold JS.arrIncludes. simpl. rewrite orb_false_r, String.eqb_eq. tauto.
Qed.

Lemma recordAll_unlockedTopics (calls : list Progress.Call) (store : Progress.Storage)
    (now : Z) :
  Progress.unlockedTopics (Progress.current now (Progress.recordAll calls store)) =
  Progress.unlockedTopics (Progress.current now store).
Proof.
  revert store. induction calls as [|c calls IH]; intros store; simpl; [reflexivity|].
  rewrite IH. unfold Progress.record.
  now destruct (recordQuizResult_lists (Progress.callTime c) now (Progress.callTopic c)
                  (Progress.callScore c) (Progress.callPassed c) store) as [_ ->],
               (current_clock (Progress.callTime c) now store) as (_ & -> & _).
Qed.

(** Recording quiz results never locks a topic again: a topic the
    recomputation pass reports unlocked is still reported unlocked after any
    sequence of [recordQuizResult] calls, passed or failed. *)
Theorem recordQuizResult_never_relocks
    (T : string) (store : Progress.Storage) (calls : list Progress.Call) (now : Z) :
  Index.isUnlocked T (Progress.current now store) = true ->
  Index.isUnlocked T (Progress.current now (Progress.recordAll calls store)) = true.
Proof.
  apply isUnlocked_mono.
  - apply recordAll_captured_incl.
  - rewrite recordAll_unlockedTopics. apply incl_refl.
Qed.

Lemma recordQuizResult_never_relocks_witness :
  let store := Some (Progress.mkProgress ["quadratic-equations"] ["quadratic-equations"]
                       ∅ ∅ 0 (5 # 2)) in
  Index.isUnlocked "quadratic-formula" (Progress.current 9 store) = true /\
  Index.isUnlocked "quadratic-formula"
    (Progress.current 9
       (Progress.recordAll [Progress.mkCall 1 "quadratic-formula" 10 false;
                            Progress.mkCall 2 "matrices" 100 true] store)) = true.
Proof.
  split; [reflexivity|].
  apply (recordQuizResult_never_relocks "quadratic-formula"
           (Some (Progress.mkProgress ["quadratic-equations"] ["quadratic-equations"]
                    ∅ ∅ 0 (5 # 2)))).
  reflexivity.
Defined.

(** Propagation: once a passed quiz is recorded for B, every stored topic
    that lists B in its own [connectedTopics] is reported unlocked against
    the stored captured list. *)
Theorem recordQuizResult_unlocks_listing_topics
    (A : Topics.Topic) (B : string) (now : Z) (score : Z) (store : Progress.Storage) :
  In A Topics.GALAXY_TOPICS ->
  In B (Topics.connectedTopics A) ->
  exists P',
    Progress.recordQuizResult now B score true store = Some P' /\
    Topics.shouldUnlockTopic (Topics.id A) (Progress.capturedTopics P') = true.
Proof.
  intros HA HB. eexists. split; [apply recordQuizResult_stored|].
  cbn [Progress.capturedTopics]. rewrite (shouldUnlockTopic_stored A _ HA).
  apply orb_true_iff. right. apply existsb_exists. exists B. split; [assumption|].
  apply arrIncludes_In. cbn [andb].
  destruct (JS.arrIncludes (Progress.capturedTopics (Progress.current now store)) B) eqn:E;
    cbn [negb].
  - now apply arrIncludes_In.
  - apply in_app_iff. right. now left.
Qed.

Lemma recordQuizResult_unlocks_listing_topics_witness :
  Topics.shouldUnlockTopic "quadratic-formula" [] = false /\
  exists P',
    Progress.recordQuizResult 1 "quadratic-equations" 75 true None = Some P' /\
    Topics.shouldUnlockTopic "quadratic-formula" (Progress.capturedTopics P') = true.
Proof.
  split; [reflexivity|].
  apply (recordQuizResult_unlocks_listing_topics
           (Topics.mkTopic "quadratic-formula" Topics.beginner
              ["quadratic-equations"; "discriminant"; "complex-roots"] false false)
           "quadratic-equations" 1 75 None).
  - vm_compute. tauto.
  - simpl. left. reflexivity.
Defined.

(** ** The keyword matcher, continued *)

Lemma NoDup_snoc (l : list string) (x : string) :
  List.NoDup l -> ~ In x l -> List.NoDup (l ++ [x]).
Proof.
  induction l as [|a l IH]; simpl; intros Hnd Hnot.
  - constructor; [tauto | constructor].
  - inversion Hnd as [|? ? Ha Hl]; subst. constructor.
    + rewrite in_app_iff. simpl. intros [H | [H | []]]; [tauto | subst; tauto].
    + apply IH; tauto.
Qed.

Lemma setAdd_NoDup (set : list string) (x : string) :
  List.NoDup set -> List.NoDup (JS.setAdd set x).
Proof.
  intros Hnd. unfold JS.setAdd. destruct (JS.arrIncludes set x) eqn:E; [assumption|].
  apply NoDup_snoc; [assumption | now apply arrIncludes_false].
Qed.

Lemma addAll_NoDup (matched topicIds : list string) :
  List.NoDup matched -> List.NoDup (Topics.addAll matched topicIds).
Proof.
  unfold Topics.addAll. revert matched.
  induction topicIds as [|t ts IH]; intros matched Hnd; simpl; [assumption|].
  apply IH. now apply setAdd_NoDup.
Qed.

Lemma exactPass_NoDup (queryWords : string) (matched : list string) :
  List.NoDup matched -> List.NoDup (Topics.exactPass queryWords matched).
Proof.
  unfold Topics.exactPass. generalize Topics.KEYWORD_TOPIC_MAP as table.
  intros table. revert matched.
  induction table as [|[keyword topicIds] table IH]; intros matched Hnd; simpl;
    [assumption|].
  apply IH. destruct (JS.includes queryWords keyword); [now apply addAll_NoDup | assumption].
Qed.

Lemma partialPass_NoDup (queryWords : string) (matched : list string) :
  List.NoDup matched -> List.NoDup (Topics.partialPass queryWords matched).
Proof.
  unfold Topics.partialPass. generalize Topics.KEYWORD_TOPIC_MAP as table.
  intros table. revert matched.
  induction table as [|[keyword topicIds] table IH]; intros matched Hnd; simpl;
    [assumption|].
  apply IH. clear IH. revert matched Hnd.
  induction (Topics.partialMatches queryWords) as [|w ws IHw]; intros matched Hnd; simpl;
    [assumption|].
  apply IHw. destruct (_ || _); [now apply addAll_NoDup | assumption].
Qed.

(** No id twice, whichever pass answers. *)
Lemma matcher_NoDup (query : string) :
  List.NoDup (Topics.getTopicsFromQuery query).
Proof.
  unfold Topics.getTopicsFromQuery.
  destruct (length _ =? 0)%nat.
  - apply partialPass_NoDup, exactPass_NoDup. constructor.
  - apply exactPass_NoDup. constructor.
Qed.

(** The matcher answers with a set: no topic id occurs twice in the array it
    returns, whichever pass produced it. *)
Theorem getTopicsFromQuery_NoDup (query : string) :
  List.NoDup (Topics.getTopicsFromQuery query).
Proof. exact (matcher_NoDup query). Qed.

(** The converse of [exactPass_In]. *)
Lemma exactPass_complete (queryWords : string) (matched : list string) (y : string) :
  In y matched \/ Spec.exactMatch queryWords y ->
  In y (Topics.exactPass queryWords matched).
Proof.
  unfold Spec.exactMatch, Topics.exactPass.
  generalize Topics.KEYWORD_TOPIC_MAP as table. intros table. revert matched.
  induction table as [|[keyword topicIds] table IH]; intros matched; simpl.
  - intros [H | (k & ids & [] & _)]. assumption.
  - intros [H | (k & ids & [Heq | Hin] & Hinc & Hy)]; apply IH.
    + left. destruct (JS.includes queryWords keyword); [|assumption].
      apply addAll_In. now left.
    + injection Heq as -> ->. rewrite Hinc. left. apply addAll_In. now right.
    + right. exists k, ids. auto.
Qed.

Lemma partialMatches_In (queryWords word : string) :
  In word (Topics.partialMatches queryWords) <->
  In word (JS.splitWs queryWords) /\ (3 < String.length word)%nat.
Proof.
  unfold Topics.partialMatches. rewrite filter_In.
  now rewrite Nat.ltb_lt.
Qed.

(** The inner loop over the kept tokens, for one keyword. *)
Lemma partialPass_words_In (keyword : string) (topicIds words matched : list string)
    (y : string) :
  In y (fold_left
          (fun matched word =>
             if JS.includes keyword word || JS.includes word (Topics.firstWord keyword)
             then Topics.addAll matched topicIds else matched)
          words matched) <->
  In y matched \/
  (exists word, In word words /\
     (JS.includes keyword word || JS.includes word (Topics.firstWord keyword)) = true) /\
  In y topicIds.
Proof.
  revert matched. induction words as [|w ws IH]; intros matched; simpl.
  - split; [auto|]. intros [H | [(w & [] & _) _]]. assumption.
  - rewrite IH. destruct (_ || _) eqn:E.
    + rewrite addAll_In. split.
      * intros [[H | H] | [(w' & Hw' & Hm) Hy]]; [now left | right | right].
        -- split; [exists w; auto | assumption].
        -- split; [exists w'; auto | assumption].
      * intros [H | [(w' & Hw' & Hm) Hy]]; [now left; left | left; now right].
    + split.
      * intros [H | [(w' & Hw' & Hm) Hy]]; [now left | right].
        split; [exists w'; auto | assumption].
      * intros [H | [(w' & [<- | Hw'] & Hm) Hy]]; [now left | congruence | right].
        split; [exists w'; auto | assumption].
Qed.

Lemma partialPass_In (queryWords : string) (matched : list string) (y : string) :
  In y (Topics.partialPass queryWords matched) <->
  In y matched \/ Spec.partialMatch queryWords y.
Proof.
  unfold Spec.partialMatch, Topics.partialPass.
  generalize Topics.KEYWORD_TOPIC_MAP as table. intros table. revert matched.
  induction table as [|[keyword topicIds] table IH]; intros matched; simpl.
  - split; [auto|]. intros [H | (k & ids & w & [] & _)]. assumption.
  - rewrite IH, partialPass_words_In. split.
    + intros [[H | [(w & Hw & Hm) Hy]] | (k & ids & w & Hin & Hrest)].
      * now left.
      * right. exists keyword, topicIds, w. apply partialMatches_In in Hw as [Hw Hlen].
        apply orb_true_iff in Hm. auto 6.
      * right. exists k, ids, w. tauto.
    + intros [H | (k & ids & w & [Heq | Hin] & Hw & Hlen & Hm & Hy)].
      * now left; left.
      * injection Heq as -> ->. left. right. split; [|assumption].
        exists w. split; [apply partialMatches_In; auto | now apply orb_true_iff].
      * right. exists k, ids, w. auto 6.
Qed.

(** Every keyword of the table maps to at least one id, and only to ids of
    the store. *)
Lemma keyword_ids_stored (keyword : string) (topicIds : list string) :
  In (keyword, topicIds) Topics.KEYWORD_TOPIC_MAP ->
  topicIds <> [] /\
  forall topicId, In topicId topicIds ->
    JS.arrIncludes (map Topics.id Topics.GALAXY_TOPICS) topicId = true.
Proof.
  assert (Hall : forallb
            (fun entry =>
               negb (length (snd entry) =? 0)%nat &&
               forallb (JS.arrIncludes (map Topics.id Topics.GALAXY_TOPICS)) (snd entry))
            Topics.KEYWORD_TOPIC_MAP = true) by (vm_compute; reflexivity).
  rewrite forallb_forall in Hall. intros Hin. specialize (Hall _ Hin).
  simpl in Hall. apply andb_true_iff in Hall as [Hne Hids]. split.
  - intros ->. discriminate Hne.
  - now apply forallb_forall.
Qed.

(** With an empty exact pass no keyword occurs in the query, and conversely. *)
Lemma exactPass_empty (queryWords : string) :
  Topics.exactPass queryWords [] = [] <-> Spec.noKeywordIn queryWords.
Proof.
  split.
  - intros Hempty keyword topicIds Hin.
    destruct (JS.includes queryWords keyword) eqn:E; [|reflexivity].
    destruct (keyword_ids_stored _ _ Hin) as [Hne _].
    destruct topicIds as [|t ts]; [congruence|].
    assert (H : In t (Topics.exactPass queryWords [])).
    { apply exactPass_complete. right. exists keyword, (t :: ts). simpl. auto. }
    rewrite Hempty in H. destruct H.
  - intros Hno. destruct (Topics.exactPass queryWords []) as [|y ys] eqn:E; [reflexivity|].
    assert (H : In y (Topics.exactPass queryWords [])) by (rewrite E; now left).
    apply exactPass_In in H as [[] | (k & ids & Hin & Hinc & _)].
    rewrite (Hno _ _ Hin) in Hinc. discriminate.
Qed.

(** Membership in the answer, pass by pass. *)
Lemma matcher_In (query topicId : string) :
  In topicId (Topics.getTopicsFromQuery query) <->
  Spec.exactMatch (Spec.normalize query) topicId \/
  (Spec.noKeywordIn (Spec.normalize query) /\
   Spec.partialMatch (Spec.normalize query) topicId).
Proof.
  destruct (Topics.exactPass (Spec.normalize query) []) as [|y ys] eqn:E.
  - rewrite (getTopicsFromQuery_fallback query E), partialPass_In.
    apply exactPass_empty in E. split.
    + intros [[] | H]. right. now split.
    + intros [(k & ids & Hin & Hinc & _) | [_ H]]; [|now right].
      rewrite (E _ _ Hin) in Hinc. discriminate.
  - assert (Hne : Topics.exactPass (Spec.normalize query) [] <> []) by congruence.
    assert (Heq : Topics.getTopicsFromQuery query = Topics.exactPass (Spec.normalize query) []).
    { unfold Topics.getTopicsFromQuery, Spec.normalize in *. now rewrite E. }
    rewrite Heq. split.
    + intros H. apply exactPass_In in H as [[] | H]. now left.
    + intros [H | [Hno _]].
      * apply exactPass_complete. now right.
      * apply exactPass_empty in Hno. congruence.
Qed.

(** The answer of the matcher as a set: the ids of the keywords the
    normalized query contains; and only when there is no such keyword, the
    ids of the keywords that one of its tokens of more than 3 characters
    matches loosely. *)
Theorem getTopicsFromQuery_In (query topicId : string) :
  In topicId (Topics.getTopicsFromQuery query) <->
  Spec.exactMatch (Spec.normalize query) topicId \/
  (Spec.noKeywordIn (Spec.normalize query) /\
   Spec.partialMatch (Spec.normalize query) topicId).
Proof. exact (matcher_In query topicId). Qed.

(** The matcher only proposes topics that exist: every id it returns is the
    id of a node of the store. *)
Theorem getTopicsFromQuery_stored (query topicId : string) :
  In topicId (Topics.getTopicsFromQuery query) ->
  exists topic, Topics.getTopicById topicId = Some topic /\ Topics.id topic = topicId.
Proof.
  intros H.
  assert (Hids : exists keyword topicIds,
             In (keyword, topicIds) Topics.KEYWORD_TOPIC_MAP /\ In topicId topicIds).
  { destruct (proj1 (matcher_In query topicId) H)
      as [(k & ids & Hin & _ & Hy) | [_ (k & ids & w & Hin & _ & _ & _ & Hy)]];
      exists k, ids; (split; assumption). }
  destruct Hids as (k & ids & Hin & Hy).
  destruct (keyword_ids_stored k ids Hin) as [_ Hstored].
  destruct (proj1 (getTopicById_stored_id topicId) (Hstored topicId Hy)) as [topic Ht].
  exists topic. split; [exact Ht | exact (proj2 (getTopicById_Some topicId topic Ht))].
Qed.

Lemma getTopicsFromQuery_stored_witness :
  In "triangles" (Topics.getTopicsFromQuery "what is the pythagorean theorem") /\
  exists topic, Topics.getTopicById "triangles" = Some topic /\ Topics.id topic = "triangles".
Proof.
  assert (Hin : In "triangles" (Topics.getTopicsFromQuery "what is the pythagorean theorem"))
    by (vm_compute; auto).
  split; [exact Hin|].
  exact (getTopicsFromQuery_stored "what is the pythagorean theorem" "triangles" Hin).
Defined.

(** [includes] is the substring test. *)
Lemma startsWith_app (k post : string) : JS.startsWith (k +:+ post) k = true.
Proof.
  induction k as [|c k IH]; simpl; [now destruct post|].
  now rewrite Ascii.eqb_refl.
Qed.

Lemma includes_startsWith (s k : string) :
  JS.startsWith s k = true -> JS.includes s k = true.
Proof. intros H. destruct s; cbn [JS.includes]; now rewrite H. Qed.

Lemma includes_app (pre k post : string) : JS.includes (pre +:+ k +:+ post) k = true.
Proof.
  induction pre as [|c pre IH].
  - change (EmptyString +:+ k +:+ post) with (k +:+ post).
    apply includes_startsWith, startsWith_app.
  - change (String c pre +:+ k +:+ post) with (String c (pre +:+ k +:+ post)).
    cbn [JS.includes]. rewrite IH. apply orb_true_r.
Qed.

Lemma startsWith_split (s k : string) :
  JS.startsWith s k = true -> exists post, s = k +:+ post.
Proof.
  revert s. induction k as [|c k IH]; intros s; cbn [JS.startsWith].
  - intros _. now exists s.
  - destruct s as [|b s]; cbn [JS.startsWith]; [discriminate|].
    rewrite andb_true_iff. intros [Hc Hs]. apply Ascii.eqb_eq in Hc as ->.
    destruct (IH s Hs) as [post ->]. now exists post.
Qed.

Lemma includes_split (s k : string) :
  JS.includes s k = true -> exists pre post, s = pre +:+ k +:+ post.
Proof.
  induction s as [|c s IH]; cbn [JS.includes]; rewrite orb_true_iff.
  - intros [H | H]; [|discriminate]. apply startsWith_split in H as [post ->].
    now exists EmptyString, post.
  - intros [H | H].
    + apply startsWith_split in H as [post ->]. now exists EmptyString, post.
    + destruct (IH H) as (pre & post & ->). now exists (String c pre), post.
Qed.

(** Asking about a keyword discovers its topics: when the lower-cased,
    trimmed query contains a keyword of the table as a substring, every id
    mapped to that keyword is in the answer. *)
Theorem getTopicsFromQuery_keyword (query keyword pre post : string)
    (topicIds : list string) :
  In (keyword, topicIds) Topics.KEYWORD_TOPIC_MAP ->
  JS.trim (JS.toLowerCase query) = pre +:+ keyword +:+ post ->
  incl topicIds (Topics.getTopicsFromQuery query).
Proof.
  intros Hin Hq topicId Hy. apply (proj2 (matcher_In query topicId)). left.
  exists keyword, topicIds. split; [exact Hin|]. split; [|exact Hy].
  unfold Spec.normalize. rewrite Hq. apply includes_app.
Qed.

Lemma getTopicsFromQuery_keyword_witness :
  In ("parabola", ["parabola-graphs"; "quadratic-equations"]) Topics.KEYWORD_TOPIC_MAP /\
  JS.trim (JS.toLowerCase " Draw a PARABOLA for me ") = "draw a " +:+ "parabola" +:+ " for me" /\
  incl ["parabola-graphs"; "quadratic-equations"]
       (Topics.getTopicsFromQuery " Draw a PARABOLA for me ").
Proof.
  assert (Hin : In ("parabola", ["parabola-graphs"; "quadratic-equations"])
                   Topics.KEYWORD_TOPIC_MAP) by (vm_compute; tauto).
  split; [exact Hin|]. split; [reflexivity|].
  exact (getTopicsFromQuery_keyword " Draw a PARABOLA for me " "parabola"
           "draw a " " for me" _ Hin eq_refl).
Defined.

(** A blank query discovers nothing: for an empty or all-whitespace query
    both passes add no id and the answer is the empty array. *)
Theorem getTopicsFromQuery_blank (query : string) :
  Spec.allSpace query = true -> Topics.getTopicsFromQuery query = [].
Proof.
  intros Hblank.
  assert (Hnorm : JS.trim (JS.toLowerCase query) = EmptyString).
  { rewrite toLowerCase_space by assumption. unfold JS.trim.
    now rewrite trimStart_space. }
  unfold Topics.getTopicsFromQuery. rewrite Hnorm. vm_compute. reflexivity.
Qed.

Lemma getTopicsFromQuery_blank_witness :
  Spec.allSpace "   " = true /\ Topics.getTopicsFromQuery "   " = [].
Proof.
  split; [reflexivity|].
  apply (getTopicsFromQuery_blank "   "). reflexivity.
Defined.

(** ** The progress record, continued *)

(** Updates compose key by key: two [updateProgress] calls in a row store
    what a single call with the later update laid over the earlier one
    stores. A supplied list or map replaces the stored one as a whole, and
    [lastActivity] is the clock of the last call whatever the updates say. *)
Theorem updateProgress_compose
    (now1 now2 : Z) (u1 u2 : Progress.PartialProgress) (store : Progress.Storage) :
  Progress.updateProgress now2 u2 (Progress.updateProgress now1 u1 store) =
  Progress.updateProgress now2 (Spec.overlay u1 u2) store /\
  exists P', Progress.updateProgress now2 u2 (Progress.updateProgress now1 u1 store) = Some P' /\
             Progress.lastActivity P' = now2.
Proof.
  split; [|eexists; split; reflexivity].
  destruct u1 as [c1 l1 a1 s1 t1 r1], u2 as [c2 l2 a2 s2 t2 r2].
  unfold Progress.updateProgress, Progress.saveProgress, Progress.spread, Spec.overlay.
  cbn. f_equal.
  destruct store as [P|]; cbn;
    f_equal; [destruct c2, c1 | destruct l2, l1 | destruct a2, a1
             | destruct s2, s1 | destruct r2, r1
             | destruct c2, c1 | destruct l2, l1 | destruct a2, a1
             | destruct s2, s1 | destruct r2, r1]; reflexivity.
Qed.

Lemma record_captured_In (store : Progress.Storage) (c : Progress.Call) (now : Z)
    (T : string) :
  In T (Progress.capturedTopics (Progress.current now (Progress.record store c))) <->
  In T (Progress.capturedTopics (Progress.current now store)) \/
  (Progress.callTopic c = T /\ Progress.callPassed c = true).
Proof.
  unfold Progress.record.
  destruct (recordQuizResult_lists (Progress.callTime c) now (Progress.callTopic c)
              (Progress.callScore c) (Progress.callPassed c) store) as [-> _].
  destruct (current_clock (Progress.callTime c) now store) as (-> & _).
  destruct (Progress.callPassed c); cbn [andb].
  - destruct (JS.arrIncludes _ (Progress.callTopic c)) eqn:E; cbn [negb].
    + apply arrIncludes_In in E. split; [auto|]. intros [H | [<- _]]; assumption.
    + rewrite in_app_iff. simpl. intuition.
  - intuition congruence.
Qed.

(** What is captured after a sequence of [recordQuizResult] calls: the
    topics captured before, and the topics of the calls whose [passed] flag
    is set; nothing else, whatever the scores. *)
Theorem recordAll_captured_In
    (calls : list Progress.Call) (store : Progress.Storage) (now : Z) (T : string) :
  In T (Progress.capturedTopics (Progress.current now (Progress.recordAll calls store))) <->
  In T (Progress.capturedTopics (Progress.current now store)) \/
  exists c, In c calls /\ Progress.callTopic c = T /\ Progress.callPassed c = true.
Proof.
  revert store. induction calls as [|c calls IH]; intros store; simpl.
  - split; [auto|]. intros [H | (c & [] & _)]. assumption.
  - rewrite IH, record_captured_In. split.
    + intros [[H | H] | (c' & Hin & H)]; [now left | right | right].
      * exists c. auto.
      * exists c'. auto.
    + intros [H | (c' & [<- | Hin] & H)]; [now left; left | now left; right | right].
      exists c'. auto.
Qed.

Lemma record_captured_NoDup (store : Progress.Storage) (c : Progress.Call) (now : Z) :
  List.NoDup (Progress.capturedTopics (Progress.current now store)) ->
  List.NoDup (Progress.capturedTopics (Progress.current now (Progress.record store c))).
Proof.
  unfold Progress.record.
  destruct (recordQuizResult_lists (Progress.callTime c) now (Progress.callTopic c)
              (Progress.callScore c) (Progress.callPassed c) store) as [-> _].
  destruct (current_clock (Progress.callTime c) now store) as (-> & _).
  intros Hnd. destruct (Progress.callPassed c); cbn [andb]; [|assumption].
  destruct (JS.arrIncludes _ (Progress.callTopic c)) eqn:E; cbn [negb]; [assumption|].
  apply NoDup_snoc; [assumption | now apply arrIncludes_false].
Qed.

(** [capturedTopics] stays a set: if no topic occurs twice in the stored
    list, none does after any sequence of [recordQuizResult] calls, even
    when the same topic is passed again and again. *)
Theorem recordAll_captured_NoDup
    (calls : list Progress.Call) (store : Progress.Storage) (now : Z) :
  List.NoDup (Progress.capturedTopics (Progress.current now store)) ->
  List.NoDup (Progress.capturedTopics (Progress.current now (Progress.recordAll calls store))).
Proof.
  revert store. induction calls as [|c calls IH]; intros store Hnd; simpl; [assumption|].
  apply IH. now apply record_captured_NoDup.
Qed.

Lemma recordAll_captured_NoDup_witness :
  let calls := [Progress.mkCall 1 "quadratic-equations" 80 true;
                Progress.mkCall 2 "quadratic-equations" 90 true;
                Progress.mkCall 3 "matrices" 60 true;
                Progress.mkCall 4 "quadratic-equations" 100 true] in
  List.NoDup (Progress.capturedTopics (Progress.current 0 None)) /\
  List.NoDup (Progress.capturedTopics (Progress.current 0 (Progress.recordAll calls None))).
Proof.
  split; [constructor|].
  apply (recordAll_captured_NoDup
           [Progress.mkCall 1 "quadratic-equations" 80 true;
            Progress.mkCall 2 "quadratic-equations" 90 true;
            Progress.mkCall 3 "matrices" 60 true;
            Progress.mkCall 4 "quadratic-equations" 100 true] None 0).
  constructor.
Defined.

(** Failed attempts change no list: after a sequence of calls that all carry
    [passed = false], [capturedTopics] and [unlockedTopics] are the lists
    stored before, element for element. *)
Theorem recordAll_failed_keeps_lists
    (calls : list Progress.Call) (store : Progress.Storage) (now : Z) :
  forallb (fun c => negb (Progress.callPassed c)) calls = true ->
  Progress.capturedTopics (Progress.current now (Progress.recordAll calls store)) =
    Progress.capturedTopics (Progress.current now store) /\
  Progress.unlockedTopics (Progress.current now (Progress.recordAll calls store)) =
    Progress.unlockedTopics (Progress.current now store).
Proof.
  intros Hfailed. split; [|apply recordAll_unlockedTopics].
  revert store. induction calls as [|c calls IH]; intros store; simpl; [reflexivity|].
  simpl in Hfailed. apply andb_true_iff in Hfailed as [Hc Hrest].
  rewrite (IH Hrest). unfold Progress.record.
  destruct (recordQuizResult_lists (Progress.callTime c) now (Progress.callTopic c)
              (Progress.callScore c) (Progress.callPassed c) store) as [-> _].
  destruct (current_clock (Progress.callTime c) now store) as (-> & _).
  now destruct (Progress.callPassed c).
Qed.

Lemma recordAll_failed_keeps_lists_witness :
  let store := Some (Progress.mkProgress ["quadratic-equations"] ["quadratic-equations"]
                       {["quadratic-equations" := JS.Num 1]} {["quadratic-equations" := JS.Num 75]}
                       0 (5 # 2)) in
  let calls := [Progress.mkCall 1 "quadratic-equations" 50 false;
                Progress.mkCall 2 "quadratic-formula" 40 false] in
  forallb (fun c => negb (Progress.callPassed c)) calls = true /\
  Progress.capturedTopics (Progress.current 3 (Progress.recordAll calls store)) =
    ["quadratic-equations"].
Proof.
  split; [reflexivity|].
  apply (recordAll_failed_keeps_lists
           [Progress.mkCall 1 "quadratic-equations" 50 false;
            Progress.mkCall 2 "quadratic-formula" 40 false]
           (Some (Progress.mkProgress ["quadratic-equations"] ["quadratic-equations"]
                    {["quadratic-equations" := JS.Num 1]} {["quadratic-equations" := JS.Num 75]}
                    0 (5 # 2))) 3).
  reflexivity.
Defined.

(** The best score on record is the running maximum: for a topic [T] whose
    score entry is read as a plain number (an own number, or absent with [T]
    not naming a member of [Object.prototype]), after a sequence of calls
    the score stored for [T] is the maximum of the score stored before (0 if
    none) and the scores of all the calls that name [T]. *)
Theorem recordAll_best_is_max
    (T : string) (calls : list Progress.Call) (store : Progress.Storage) :
  Spec.plainEntry (Progress.quizScores (Progress.current 0 store)) T = true ->
  Spec.bestOf T (Progress.recordAll calls store) =
  fold_left Z.max (Spec.scoresFor T calls) (Spec.bestOf T store).
Proof. apply recordAll_best. Qed.

Lemma recordAll_best_is_max_witness :
  let store := Some (Progress.mkProgress [] ["quadratic-equations"]
                       {["linear-equations" := JS.Num 1]}
                       {["linear-equations" := JS.Num 40]} 0 0) in
  let calls := [Progress.mkCall 1 "linear-equations" 30 false;
                Progress.mkCall 2 "toString" 90 true;
                Progress.mkCall 3 "linear-equations" 70 true;
                Progress.mkCall 4 "linear-equations" 55 false] in
  Spec.plainEntry (Progress.quizScores (Progress.current 0 store)) "linear-equations"
    = true /\
  Spec.bestOf "linear-equations" (Progress.recordAll calls store) = 70%Z.
Proof.
  split; [reflexivity|].
  rewrite (recordAll_best_is_max "linear-equations"
             [Progress.mkCall 1 "linear-equations" 30 false;
              Progress.mkCall 2 "toString" 90 true;
              Progress.mkCall 3 "linear-equations" 70 true;
              Progress.mkCall 4 "linear-equations" 55 false]
             (Some (Progress.mkProgress [] ["quadratic-equations"]
                      {["linear-equations" := JS.Num 1]}
                      {["linear-equations" := JS.Num 40]} 0 0)));
    reflexivity.
Defined.

(** Frame: calls that do not name [U] leave the entries of [U] in
    [quizAttempts] and [quizScores] exactly as they were, absent entries
    staying absent. *)
Theorem recordAll_other_topics_untouched
    (U : string) (calls : list Progress.Call) (store : Progress.Storage) (now : Z) :
  forallb (fun c => negb (String.eqb (Progress.callTopic c) U)) calls = true ->
  Progress.quizAttempts (Progress.current now (Progress.recordAll calls store)) !! U =
    Progress.quizAttempts (Progress.current now store) !! U /\
  Progress.quizScores (Progress.current now (Progress.recordAll calls store)) !! U =
    Progress.quizScores (Progress.current now store) !! U.
Proof.
  revert store. induction calls as [|c calls IH]; intros store Hother; simpl; [now split|].
  simpl in Hother. apply andb_true_iff in Hother as [Hc Hrest].
  destruct (IH (Progress.record store c) Hrest) as [-> ->].
  apply negb_true_iff in Hc.
  destruct (String.eqb_spec (Progress.callTopic c) U) as [|Hne]; [discriminate|].
  unfold Progress.record. rewrite recordQuizResult_stored. cbn.
  destruct (current_clock (Progress.callTime c) now store) as (_ & _ & -> & ->).
  now rewrite !lookup_insert_ne by assumption.
Qed.

Lemma recordAll_other_topics_untouched_witness :
  let calls := [Progress.mkCall 1 "quadratic-equations" 80 true;
                Progress.mkCall 2 "matrices" 10 false] in
  forallb (fun c => negb (String.eqb (Progress.callTopic c) "triangles")) calls = true /\
  Progress.quizAttempts (Progress.current 0 (Progress.recordAll calls None)) !! "triangles"
    = None.
Proof.
  split; [reflexivity|].
  destruct (recordAll_other_topics_untouched "triangles"
              [Progress.mkCall 1 "quadratic-equations" 80 true;
               Progress.mkCall 2 "matrices" 10 false] None 0 eq_refl) as [Ha _].
  rewrite Ha. reflexivity.
Defined.

(** The stored completion rate is not bounded by 100: it is 5/2 per captured
    topic, so it stays within 0..100 exactly as long as at most 40 topics are
    captured, while the store holds 81. *)
Theorem recordQuizResult_completionRate_bound
    (now : Z) (topicId : string) (score : Z) (passed : bool) (store : Progress.Storage) :
  exists P',
    Progress.recordQuizResult now topicId score passed store = Some P' /\
    (0 <= Progress.completionRate P')%Q /\
    ((Progress.completionRate P' <= 100)%Q <->
     (length (Progress.capturedTopics P') <= 40)%nat).
Proof.
  eexists. split; [apply recordQuizResult_stored|].
  cbn [Progress.completionRate Progress.capturedTopics].
  set (n := length _).
  unfold Qle, Qdiv, Qmult, Qinv, inject_Z. simpl. split; lia.
Qed.

(** ** The page handlers, continued *)

(** The saving effect of the page writes the two lists only: ending a
    learning session or discovering topics leaves [quizAttempts],
    [quizScores] and [completionRate] as stored, so a capture made through
    [handleLearningComplete] is stored beside the completion rate of the
    record before it. *)
Theorem page_saves_keep_quiz_fields
    (now now' : Z) (store : Progress.Storage) (topicId query : string) (score : Z) :
  let P := Progress.current now store in
  let P1 := Progress.current now' (Index.learningComplete now topicId score store) in
  let P2 := Progress.current now' (Index.discover now query store) in
  (Progress.quizAttempts P1 = Progress.quizAttempts P /\
   Progress.quizScores P1 = Progress.quizScores P /\
   Progress.completionRate P1 = Progress.completionRate P /\
   Progress.unlockedTopics P1 = Progress.unlockedTopics P /\
   Progress.capturedTopics P1 =
     Index.handleLearningComplete topicId score (Progress.capturedTopics P)) /\
  (Progress.quizAttempts P2 = Progress.quizAttempts P /\
   Progress.quizScores P2 = Progress.quizScores P /\
   Progress.completionRate P2 = Progress.completionRate P /\
   Progress.capturedTopics P2 = Progress.capturedTopics P).
Proof. destruct store; cbn; repeat split. Qed.

(** [handleLearningComplete] captures at the threshold of 60 and keeps a
    set: afterwards the captured topics are those captured before, plus the
    topic of the session when its score is at least 60; a list without
    duplicates stays without duplicates. *)
Theorem handleLearningComplete_spec
    (topicId : string) (score : Z) (capturedTopics : list string) (T : string) :
  (In T (Index.handleLearningComplete topicId score capturedTopics) <->
   In T capturedTopics \/ (T = topicId /\ (60 <= score)%Z)) /\
  (List.NoDup capturedTopics ->
   List.NoDup (Index.handleLearningComplete topicId score capturedTopics)).
Proof.
  unfold Index.handleLearningComplete.
  destruct (Z.leb_spec 60 score) as [Hpass | Hfail]; cbn [andb].
  - destruct (JS.arrIncludes capturedTopics topicId) eqn:E; cbn [negb].
    + apply arrIncludes_In in E. split; [|auto].
      split; [auto|]. intros [H | [-> _]]; assumption.
    + split.
      * rewrite in_app_iff. simpl. intuition.
      * intros Hnd. apply NoDup_snoc; [assumption | now apply arrIncludes_false].
  - split; [|auto]. split; [auto|]. intros [H | [_ H]]; [assumption | lia].
Qed.

Lemma newlyUnlockable_In (query : string) (capturedTopics unlockedTopics : list string)
    (T : string) :
  In T (Index.newlyUnlockable query capturedTopics unlockedTopics) <->
  In T (Topics.getTopicsFromQuery query) /\ ~ In T unlockedTopics /\ ~ In T capturedTopics.
Proof.
  unfold Index.newlyUnlockable. rewrite filter_In, andb_true_iff, !negb_true_iff.
  now rewrite !arrIncludes_false.
Qed.

(** The delta reported to the user holds no duplicate-unlock event: the ids
    in [newlyUnlockable] are matched by the query, are neither unlocked nor
    captured already, and none occurs twice. *)
Theorem newlyUnlockable_fresh
    (query : string) (capturedTopics unlockedTopics : list string) :
  (forall T, In T (Index.newlyUnlockable query capturedTopics unlockedTopics) <->
     In T (Topics.getTopicsFromQuery query) /\
     ~ In T unlockedTopics /\ ~ In T capturedTopics) /\
  List.NoDup (Index.newlyUnlockable query capturedTopics unlockedTopics).
Proof.
  split; [intros T; apply newlyUnlockable_In|].
  unfold Index.newlyUnlockable. apply List.NoDup_filter, matcher_NoDup.
Qed.







Lemma handleLearningComplete_spec_witness :
  List.NoDup ["quadratic-equations"] /\
  List.NoDup (Index.handleLearningComplete "quadratic-equations" 100 ["quadratic-equations"]) /\
  ~ In "matrices" (Index.handleLearningComplete "matrices" 59 ["quadratic-equations"]).
Proof.
  assert (Hnd : List.NoDup ["quadratic-equations"])
    by (constructor; [simpl; tauto | constructor]).
  split; [exact Hnd|]. split.
  - exact (proj2 (handleLearningComplete_spec "quadratic-equations" 100
                    ["quadratic-equations"] "matrices") Hnd).
  - intros H.
    apply (proj1 (handleLearningComplete_spec "matrices" 59 ["quadratic-equations"]
                    "matrices")) in H.
    destruct H as [[H | []] | [_ H]]; [discriminate H | lia].
Defined.

(** The recomputation pass derives its flags afresh: the result depends on
    the current lists only, not on the flags the nodes carried before, so a
    second pass overrides the first; ids and adjacency are never altered. *)
Theorem recomputeTopics_fresh
    (captured unlocked captured' unlocked' : list string) (prevTopics : list Topics.Topic) :
  Index.recomputeTopics captured unlocked
    (Index.recomputeTopics captured' unlocked' prevTopics)
  = Index.recomputeTopics captured unlocked prevTopics /\
  map Topics.id (Index.recomputeTopics captured unlocked prevTopics)
  = map Topics.id prevTopics /\
  map Topics.connectedTopics (Index.recomputeTopics captured unlocked prevTopics)
  = map Topics.connectedTopics prevTopics.
Proof.
  unfold Index.recomputeTopics. rewrite !map_map. repeat split; apply map_ext; reflexivity.
Qed.

(** The earlier page kept the previous flag instead: after any number of
    recomputations a node is flagged unlocked when it was flagged at the
    start or when the unlock check held for one of the captured lists seen on
    the way, even if it no longer holds for the current one. *)
Theorem legacy_recompute_sticky (history : list (list string)) (topic : Topics.Topic) :
  Topics.id (Spec.legacyHistory history topic) = Topics.id topic /\
  Topics.unlocked (Spec.legacyHistory history topic) =
  Topics.unlocked topic
  || existsb (Topics.shouldUnlockTopic (Topics.id topic)) history.
Proof.
  unfold Spec.legacyHistory. revert topic.
  induction history as [|c history IH]; intros topic; simpl.
  - now rewrite orb_false_r.
  - destruct (IH (LegacyIndex.recomputeTopic c topic)) as [-> ->]. simpl.
    split; [reflexivity|].
    destruct (Topics.shouldUnlockTopic (Topics.id topic) c), (Topics.unlocked topic);
      reflexivity.
Qed.

Lemma no_word_no_rule (query : string) (rules : list (list string * string)) :
  forallb (fun word => negb (JS.includes query word)) (flat_map fst rules) = true ->
  find (fun rule => existsb (JS.includes query) (fst rule)) rules = None.
Proof.
  induction rules as [|[words topicId] rules IH]; cbn [flat_map find fst]; [reflexivity|].
  rewrite forallb_app, andb_true_iff. intros [Hwords Hrest].
  assert (Hnone : existsb (JS.includes query) words = false).
  { clear -Hwords. induction words as [|word words IHw]; cbn [existsb forallb] in *;
      [reflexivity|].
    apply andb_true_iff in Hwords as [Hw Hws]. apply negb_true_iff in Hw.
    now rewrite Hw, IHw. }
  rewrite Hnone. exact (IH Hrest).
Qed.

(** The chain of tests of the earlier page follows its routing table. *)
Lemma legacy_chain (userQuery : string) :
  JS.trim userQuery <> EmptyString ->
  LegacyIndex.handleQuerySubmit userQuery =
  Topics.getTopicById (Spec.legacyTopicId (JS.toLowerCase userQuery)).
Proof.
  intros Hne. unfold LegacyIndex.handleQuerySubmit.
  destruct (String.eqb_spec (JS.trim userQuery) EmptyString) as [|_]; [contradiction|].
  cbv zeta. generalize (JS.toLowerCase userQuery) as query. intros query.
  unfold Spec.legacyTopicId, Spec.legacyRules. cbn [find existsb fst].
  rewrite !orb_false_r.
  repeat match goal with
         | |- context [if ?b then Topics.getTopicById _ else _] =>
             destruct b; cbn [snd]; [reflexivity|]
         end.
  reflexivity.
Qed.

Lemma legacyTopicId_stored (query : string) :
  exists topic,
    Topics.getTopicById (Spec.legacyTopicId query) = Some topic /\
    In topic Topics.GALAXY_TOPICS /\
    Topics.id topic = Spec.legacyTopicId query.
Proof.
  assert (Hall : forall topicId,
            In topicId ("quadratic-equations" :: map snd Spec.legacyRules) ->
            exists topic, Topics.getTopicById topicId = Some topic).
  { intros topicId Hin.
    repeat (destruct Hin as [<- | Hin]; [eexists; vm_compute; reflexivity|]).
    destruct Hin. }
  assert (Hin : In (Spec.legacyTopicId query)
                   ("quadratic-equations" :: map snd Spec.legacyRules)).
  { unfold Spec.legacyTopicId.
    destruct (find _ Spec.legacyRules) as [rule|] eqn:E; [right | now left].
    apply in_map. exact (proj1 (find_some _ _ E)). }
  destruct (Hall _ Hin) as [topic Htopic].
  exists topic. split; [exact Htopic|]. exact (getTopicById_Some _ _ Htopic).
Qed.

(** The earlier page's query box never comes back empty-handed: a blank
    query is ignored, and every other query opens a learning session on a
    node of the store, without looking at whether that node is unlocked.
    The node is the one of the first rule of the page's table with a word
    that occurs in the lower-cased query, and [quadratic-equations] when no
    word of the table occurs. *)
Theorem legacy_handleQuerySubmit_total (userQuery : string) :
  (JS.trim userQuery = EmptyString -> LegacyIndex.handleQuerySubmit userQuery = None) /\
  (JS.trim userQuery <> EmptyString ->
   exists topic,
     LegacyIndex.handleQuerySubmit userQuery = Some topic /\
     In topic Topics.GALAXY_TOPICS /\
     Topics.id topic = Spec.legacyTopicId (JS.toLowerCase userQuery) /\
     (Spec.noLegacyWord (JS.toLowerCase userQuery) = true ->
      Topics.id topic = "quadratic-equations")).
Proof.
  split.
  - unfold LegacyIndex.handleQuerySubmit. intros ->. reflexivity.
  - intros Hne. rewrite (legacy_chain userQuery Hne).
    destruct (legacyTopicId_stored (JS.toLowerCase userQuery)) as (topic & Hget & Hin & Hid).
    exists topic. split; [exact Hget|]. split; [exact Hin|]. split; [exact Hid|].
    intros Hnone. rewrite Hid. unfold Spec.legacyTopicId.
    now rewrite (no_word_no_rule _ Spec.legacyRules Hnone).
Qed.

Lemma legacy_handleQuerySubmit_total_witness :
  JS.trim "What is a Matrix?" <> EmptyString /\
  Spec.noLegacyWord (JS.toLowerCase "What is a Matrix?") = true /\
  exists topic,
    LegacyIndex.handleQuerySubmit "What is a Matrix?" = Some topic /\
    Topics.id topic = "quadratic-equations".
Proof.
  assert (Hne : JS.trim "What is a Matrix?" <> EmptyString)
    by (vm_compute; discriminate).
  split; [exact Hne|]. split; [vm_compute; reflexivity|].
  destruct (proj2 (legacy_handleQuerySubmit_total "What is a Matrix?") Hne)
    as (topic & Hget & _ & _ & Hdefault).
  exists topic. split; [exact Hget|]. apply Hdefault. vm_compute. reflexivity.
Defined.

(** ** The gate of the galaxy map *)

Lemma find_recomputeTopics (captured unlocked : list string) (topics : list Topics.Topic)
    (id0 : string) :
  find (fun t => String.eqb (Topics.id t) id0)
       (Index.recomputeTopics captured unlocked topics) =
  option_map (Index.recomputeTopic captured unlocked)
             (find (fun t => String.eqb (Topics.id t) id0) topics).
Proof.
  induction topics as [|t ts IH]; simpl; [reflexivity|].
  destruct (String.eqb (Topics.id t) id0); [reflexivity | exact IH].
Qed.

(** Recomputing the flags does not change what a node lists. *)
Lemma listed_after_recompute (captured unlocked : list string) (topics : list Topics.Topic)
    (id0 topicId : string) :
  match find (fun t => String.eqb (Topics.id t) id0)
             (Index.recomputeTopics captured unlocked topics) with
  | Some t => JS.arrIncludes (Topics.connectedTopics t) topicId
  | None => false
  end =
  match find (fun t => String.eqb (Topics.id t) id0) topics with
  | Some t => JS.arrIncludes (Topics.connectedTopics t) topicId
  | None => false
  end.
Proof.
  rewrite find_recomputeTopics.
  destruct (find (fun t => String.eqb (Topics.id t) id0) topics); reflexivity.
Qed.

Lemma existsb_pointwise {A : Type} (f g : A -> bool) (l : list A) :
  (forall x, f x = g x) -> existsb f l = existsb g l.
Proof. intros H. induction l as [|a l IH]; simpl; [reflexivity | now rewrite H, IH]. Qed.

(** The gate on a recomputed node list, for any list of nodes. *)
Lemma gate_on_recomputed (topics : list Topics.Topic) (captured unlocked : list string)
    (A : Topics.Topic) :
  GalaxyMap.isUnlocked (Index.recomputeTopics captured unlocked topics)
                       captured (Index.recomputeTopic captured unlocked A)
  = (Topics.shouldUnlockTopic (Topics.id A) captured
     || JS.arrIncludes unlocked (Topics.id A))
    || existsb
         (fun id0 =>
            match find (fun t => String.eqb (Topics.id t) id0) topics with
            | Some t => JS.arrIncludes (Topics.connectedTopics t) (Topics.id A)
            | None => false
            end)
         captured.
Proof.
  unfold GalaxyMap.isUnlocked.
  cbn [Index.recomputeTopic Topics.unlocked Topics.id].
  rewrite (existsb_pointwise _ _ captured
             (fun id0 => listed_after_recompute captured unlocked topics id0 (Topics.id A))).
  reflexivity.
Qed.

(** The gate on the recomputed node list. *)
Lemma gate_after_recompute (P : Progress.PersistedProgress) (A : Topics.Topic) :
  let captured := Progress.capturedTopics P in
  let unlocked := Progress.unlockedTopics P in
  GalaxyMap.isUnlocked (Index.recomputeTopics captured unlocked Topics.GALAXY_TOPICS)
                       captured (Index.recomputeTopic captured unlocked A)
  = Index.isUnlocked (Topics.id A) P || Spec.listedByCaptured captured (Topics.id A).
Proof.
  exact (gate_on_recomputed Topics.GALAXY_TOPICS (Progress.capturedTopics P)
           (Progress.unlockedTopics P) A).
Qed.

(** Which nodes the map lets the user open, once the page has recomputed its
    node list from the progress record: the nodes the recomputation pass
    flags unlocked, and besides them every node that some captured topic
    lists in its adjacency, whether or not the node lists that topic back. *)
Theorem galaxyMap_gate (P : Progress.PersistedProgress) (A : Topics.Topic) :
  let captured := Progress.capturedTopics P in
  let unlocked := Progress.unlockedTopics P in
  GalaxyMap.isUnlocked (Index.recomputeTopics captured unlocked Topics.GALAXY_TOPICS)
                       captured (Index.recomputeTopic captured unlocked A)
  = Index.isUnlocked (Topics.id A) P || Spec.listedByCaptured captured (Topics.id A).
Proof. exact (gate_after_recompute P A). Qed.

(** The gate follows the adjacency of the captured topic: as soon as a stored
    topic B is captured, every node that B lists can be opened from the map,
    also a node that the unlock check itself still reports locked. *)
Theorem galaxyMap_opens_listed
    (P : Progress.PersistedProgress) (B A : Topics.Topic) :
  In B Topics.GALAXY_TOPICS ->
  In (Topics.id B) (Progress.capturedTopics P) ->
  In (Topics.id A) (Topics.connectedTopics B) ->
  let captured := Progress.capturedTopics P in
  let unlocked := Progress.unlockedTopics P in
  GalaxyMap.onClick (Index.recomputeTopics captured unlocked Topics.GALAXY_TOPICS)
                    captured (Index.recomputeTopic captured unlocked A)
  = Some (Index.recomputeTopic captured unlocked A).
Proof.
  intros HB Hcap Hlist. cbn zeta. unfold GalaxyMap.onClick.
  rewrite (gate_after_recompute P A).
  assert (Hlisted : Spec.listedByCaptured (Progress.capturedTopics P) (Topics.id A) = true).
  { apply existsb_exists. exists (Topics.id B). split; [assumption|].
    rewrite (getTopicById_stored B HB). now apply arrIncludes_In. }
  now rewrite Hlisted, orb_true_r.
Qed.

(** [quadratic-equations] lists [algebra-overview], which does not list it
    back: with the root captured the check reports [algebra-overview] locked
    and the map opens it all the same. *)
Lemma galaxyMap_opens_listed_witness :
  let P := Progress.mkProgress ["quadratic-equations"] ["quadratic-equations"] ∅ ∅ 0 0 in
  let B := Topics.mkTopic "quadratic-equations" Topics.beginner
             ["quadratic-formula"; "parabola-graphs"; "factorization"; "algebra-overview"]
             false true in
  let A := Topics.mkTopic "algebra-overview" Topics.beginner
             ["linear-equations"; "systems-of-equations"; "polynomials"] false false in
  Index.isUnlocked "algebra-overview" P = false /\
  GalaxyMap.onClick
    (Index.recomputeTopics (Progress.capturedTopics P) (Progress.unlockedTopics P)
       Topics.GALAXY_TOPICS)
    (Progress.capturedTopics P)
    (Index.recomputeTopic (Progress.capturedTopics P) (Progress.unlockedTopics P) A)
  = Some (Index.recomputeTopic (Progress.capturedTopics P) (Progress.unlockedTopics P) A).
Proof.
  split; [reflexivity|].
  apply (galaxyMap_opens_listed
           (Progress.mkProgress ["quadratic-equations"] ["quadratic-equations"] ∅ ∅ 0 0)
           (Topics.mkTopic "quadratic-equations" Topics.beginner
              ["quadratic-formula"; "parabola-graphs"; "factorization"; "algebra-overview"]
              false true)
           (Topics.mkTopic "algebra-overview" Topics.beginner
              ["linear-equations"; "systems-of-equations"; "polynomials"] false false)).
  - vm_compute. tauto.
  - simpl. left. reflexivity.
  - simpl. tauto.
Defined.

(** ** The quiz bank and the quiz component *)

(** Every question of the bank has four options and a correct answer that
    is one of them. *)
Theorem quizBank_answers_in_range (topicId : string) (q : Questions.QuizQuestion) :
  In q (Questions.getQuizQuestions topicId) ->
  length (Questions.options q) = 4%nat /\
  (Questions.correctAnswer q < length (Questions.options q))%nat.
Proof.
  unfold Questions.getQuizQuestions, Questions.quizBankAt, Questions.quizBank.
  cbn [find fst snd].
  destruct (String.eqb "quadratic-equations" topicId);
    [|destruct (String.eqb "linear-equations" topicId);
      [|destruct (JS.arrIncludes JS.objectPrototypeMembers topicId)]];
    cbn [snd In Questions.indexed]; intros H;
    repeat (destruct H as [<- | H];
            [split; [reflexivity|];
             cbn [Questions.correctAnswer Questions.options length]; lia|]);
    destruct H.
Qed.

Lemma quizBank_answers_in_range_witness :
  In (Questions.mkQuestion "le-3" ["x = 4"; "x = 8"; "x = 28"; "x = 4.5"] 0)
     (Questions.getQuizQuestions "linear-equations") /\
  (0 < length ["x = 4"; "x = 8"; "x = 28"; "x = 4.5"])%nat.
Proof.
  assert (Hin : In (Questions.mkQuestion "le-3" ["x = 4"; "x = 8"; "x = 28"; "x = 4.5"] 0)
                   (Questions.getQuizQuestions "linear-equations"))
    by (vm_compute; tauto).
  split; [exact Hin|].
  exact (proj2 (quizBank_answers_in_range "linear-equations" _ Hin)).
Defined.

(** Only two topics have a quiz. For every other topic id, known to the
    store or not, the quiz component fails at its first render, reading
    [correctAnswer] of an undefined question. What [getQuizQuestions]
    answers for such an id is the empty array, unless the id names a member
    of [Object.prototype]: then it is that inherited member. *)
Theorem quiz_renders_only_with_bank (topicId : string) :
  (Questions.quizBankAt topicId = Questions.Questions [] <->
   topicId <> "quadratic-equations" /\ topicId <> "linear-equations" /\
   JS.arrIncludes JS.objectPrototypeMembers topicId = false) /\
  (Questions.quizBankAt topicId = Questions.InheritedMember topicId <->
   JS.arrIncludes JS.objectPrototypeMembers topicId = true) /\
  (Quiz.render (Questions.getQuizQuestions topicId) Quiz.initial = None <->
   topicId <> "quadratic-equations" /\ topicId <> "linear-equations").
Proof.
  unfold Questions.getQuizQuestions, Questions.quizBankAt, Questions.quizBank.
  cbn [find fst snd].
  destruct (String.eqb_spec "quadratic-equations" topicId) as [<- | H1].
  - cbn [snd Questions.indexed]. repeat split; try discriminate.
    + intros [H _]. now elim H.
    + intros [H _]. now elim H.
  - destruct (String.eqb_spec "linear-equations" topicId) as [<- | H2].
    + cbn [snd Questions.indexed]. repeat split; try discriminate.
      * intros (_ & H & _). now elim H.
      * intros [_ H]. now elim H.
    + destruct (JS.arrIncludes JS.objectPrototypeMembers topicId);
        cbn [Questions.indexed]; repeat split; try discriminate; try congruence;
        try reflexivity.
      intros (_ & _ & H). discriminate H.
Qed.

Lemma render_at (done rest : list Questions.QuizQuestion) (q : Questions.QuizQuestion)
    (sel : option nat) (fb : bool) (k : nat) :
  Quiz.render (done ++ q :: rest) (Quiz.mkState (length done) sel fb k) =
  Some {| Quiz.currentQuestion := q;
          Quiz.isLastQuestion := match rest with [] => true | _ => false end;
          Quiz.isCorrect :=
            match sel with
            | Some a => (a =? Questions.correctAnswer q)%nat
            | None => false
            end |}.
Proof.
  unfold Quiz.render. cbn [Quiz.currentQuestionIndex Quiz.selectedAnswer].
  rewrite nth_error_app2, Nat.sub_diag by lia. cbn [nth_error].
  do 2 f_equal. rewrite length_app. cbn [length].
  destruct rest; cbn [length].
  - apply Z.eqb_eq. lia.
  - apply Z.eqb_neq. lia.
Qed.

(** Answering a question that is not the last one: the index moves on and
    the score counts the answer once. *)
Lemma run_answer_next (done rest : list Questions.QuizQuestion) (q q' : Questions.QuizQuestion)
    (a k : nat) (evs : list Quiz.Event) :
  Quiz.run (done ++ q :: q' :: rest) (Quiz.mkState (length done) None false k)
           (Quiz.Select a :: Quiz.Submit :: Quiz.Next :: evs) =
  Quiz.run (done ++ q :: q' :: rest)
           (Quiz.mkState (length done + 1) None false
              (if (a =? Questions.correctAnswer q)%nat then k + 1 else k)) evs.
Proof.
  cbn [Quiz.run]. unfold Quiz.step at 1. rewrite render_at.
  cbn [Quiz.handleAnswerSelect Quiz.showFeedback Quiz.currentQuestionIndex Quiz.score].
  cbn [Quiz.run]. unfold Quiz.step at 1. rewrite render_at.
  cbn [Quiz.handleSubmit Quiz.showFeedback Quiz.selectedAnswer Quiz.isCorrect
       Quiz.currentQuestionIndex Quiz.score].
  cbn [Quiz.run]. unfold Quiz.step at 1. rewrite render_at.
  cbn [Quiz.handleNext Quiz.showFeedback Quiz.isLastQuestion Quiz.currentQuestionIndex
       Quiz.score].
  reflexivity.
Qed.

(** Answering the last question: [handleSubmit] has counted the answer when
    [handleNext] adds it once more. *)
Lemma run_answer_last (done : list Questions.QuizQuestion) (q : Questions.QuizQuestion)
    (a k : nat) (evs : list Quiz.Event) :
  Quiz.run (done ++ [q]) (Quiz.mkState (length done) None false k)
           (Quiz.Select a :: Quiz.Submit :: Quiz.Next :: evs) =
  let bit := if (a =? Questions.correctAnswer q)%nat then 1%nat else 0%nat in
  Some (Quiz.mkState (length done) (Some a) true
          (if (a =? Questions.correctAnswer q)%nat then k + 1 else k),
        Some (Spec.percent (k + bit + bit) (length (done ++ [q])))).
Proof.
  cbn [Quiz.run]. unfold Quiz.step at 1. rewrite render_at.
  cbn [Quiz.handleAnswerSelect Quiz.showFeedback Quiz.currentQuestionIndex Quiz.score].
  cbn [Quiz.run]. unfold Quiz.step at 1. rewrite render_at.
  cbn [Quiz.handleSubmit Quiz.showFeedback Quiz.selectedAnswer Quiz.isCorrect
       Quiz.currentQuestionIndex Quiz.score].
  cbn [Quiz.run]. unfold Quiz.step at 1. rewrite render_at.
  cbn [Quiz.handleNext Quiz.showFeedback Quiz.isLastQuestion Quiz.currentQuestionIndex
       Quiz.score].
  unfold Quiz.finalScore, Spec.percent.
  cbn [Quiz.score Quiz.isCorrect].
  destruct (a =? Questions.correctAnswer q)%nat; cbn zeta;
    repeat f_equal; lia.
Qed.

Lemma run_answers_from (rest done : list Questions.QuizQuestion) (answers : list nat)
    (k : nat) :
  rest <> [] -> length answers = length rest ->
  exists st,
    Quiz.run (done ++ rest) (Quiz.mkState (length done) None false k)
             (Spec.answerEvents answers) =
    Some (st, Some (Spec.percent
                      (k + Spec.correctCount rest answers
                       + if Spec.lastCorrect rest answers then 1 else 0)
                      (length (done ++ rest)))).
Proof.
  revert done answers k.
  induction rest as [|q rest IH]; intros done answers k Hne Hlen; [congruence|].
  destruct answers as [|a answers]; [discriminate|].
  injection Hlen as Hlen. cbn [Spec.answerEvents flat_map app].
  destruct rest as [|q' rest].
  - destruct answers; [|discriminate]. cbn [flat_map].
    rewrite run_answer_last. cbn zeta. eexists. do 3 f_equal.
    apply (f_equal2 Spec.percent); [|reflexivity].
    cbn [Spec.correctCount Spec.lastCorrect].
    destruct (a =? Questions.correctAnswer q)%nat; lia.
  - rewrite run_answer_next.
    replace (done ++ q :: q' :: rest) with ((done ++ [q]) ++ q' :: rest)
      by now rewrite <- app_assoc.
    replace (length done + 1)%nat with (length (done ++ [q]))
      by (rewrite length_app; reflexivity).
    destruct (IH (done ++ [q]) answers
                (if (a =? Questions.correctAnswer q)%nat then k + 1 else k)%nat
                ltac:(discriminate) Hlen) as [st Hst].
    exists st. fold (Spec.answerEvents answers). rewrite Hst. do 3 f_equal.
    apply (f_equal2 Spec.percent); [|reflexivity].
    destruct answers as [|a' answers]; [discriminate|].
    cbn [Spec.correctCount Spec.lastCorrect].
    destruct (a =? Questions.correctAnswer q)%nat; lia.
Qed.

(** The score the quiz reports. When the user answers every question in
    turn, [onComplete] receives the rounded percentage of the number of
    correct answers plus one more if the last answer is correct: the last
    question is counted by [handleSubmit] and again by [handleNext]. (Stated
    away from exact halves, where the percentage is rounded.) *)
Theorem quiz_reported_score (questions : list Questions.QuizQuestion) (answers : list nat) :
  let counted := (Spec.correctCount questions answers
                  + if Spec.lastCorrect questions answers then 1 else 0)%nat in
  questions <> [] -> length answers = length questions ->
  Spec.halfway counted (length questions) = false ->
  exists st,
    Quiz.run questions Quiz.initial (Spec.answerEvents answers) =
    Some (st, Some (Spec.percent counted (length questions))).
Proof.
  intros counted Hne Hlen _. exact (run_answers_from questions [] answers 0 Hne Hlen).
Qed.

(** On the bank of [quadratic-equations]: four right answers are reported as
    125, and a single right answer, the last, as 50. *)
Lemma quiz_reported_score_witness :
  let questions := Questions.getQuizQuestions "quadratic-equations" in
  questions <> [] /\ length [1; 2; 2; 3]%nat = length questions /\
  Spec.halfway 5 4 = false /\ Spec.halfway 2 4 = false /\
  (exists st, Quiz.run questions Quiz.initial (Spec.answerEvents [1; 2; 2; 3]%nat)
              = Some (st, Some 125%Z)) /\
  (exists st, Quiz.run questions Quiz.initial (Spec.answerEvents [0; 0; 0; 3]%nat)
              = Some (st, Some 50%Z)).
Proof.
  assert (Hne : Questions.getQuizQuestions "quadratic-equations" <> [])
    by (vm_compute; discriminate).
  split; [exact Hne|]. split; [reflexivity|].
  split; [reflexivity|]. split; [reflexivity|]. split.
  - exact (quiz_reported_score (Questions.getQuizQuestions "quadratic-equations")
             [1; 2; 2; 3]%nat Hne eq_refl eq_refl).
  - exact (quiz_reported_score (Questions.getQuizQuestions "quadratic-equations")
             [0; 0; 0; 3]%nat Hne eq_refl eq_refl).
Defined.

Lemma correctCount_all (questions : list Questions.QuizQuestion) :
  Spec.correctCount questions (map Questions.correctAnswer questions) = length questions.
Proof.
  induction questions as [|q questions IH]; simpl; [reflexivity|].
  now rewrite Nat.eqb_refl, IH.
Qed.

Lemma lastCorrect_all (questions : list Questions.QuizQuestion) :
  questions <> [] ->
  Spec.lastCorrect questions (map Questions.correctAnswer questions) = true.
Proof.
  induction questions as [|q questions IH]; [congruence|]. intros _.
  destruct questions as [|q' questions]; simpl.
  - apply Nat.eqb_refl.
  - apply IH. discriminate.
Qed.

Lemma percent_above_100 (n : nat) :
  (0 < n <= 100)%nat -> (101 <= Spec.percent (n + 1) n)%Z.
Proof.
  intros Hn. unfold Spec.percent, JS.mathRound.
  rewrite <- (Qfloor_Z 101). apply Qfloor_resp_le.
  destruct n as [|m]; [lia|].
  unfold Qle, Qplus, Qmult, Qdiv, Qinv, inject_Z. simpl. lia.
Qed.

(** A perfect run is reported above 100: on any quiz of 1 to 100 questions,
    answering every question correctly makes the component report a score
    of 101 or more, since the last answer is counted twice. *)
Theorem quiz_perfect_run_above_100 (questions : list Questions.QuizQuestion) :
  questions <> [] -> (length questions <= 100)%nat ->
  exists st final,
    Quiz.run questions Quiz.initial
             (Spec.answerEvents (map Questions.correctAnswer questions))
    = Some (st, Some final) /\ (101 <= final)%Z.
Proof.
  intros Hne Hlen.
  destruct (run_answers_from questions [] (map Questions.correctAnswer questions) 0 Hne)
    as [st Hst]; [apply length_map|].
  rewrite correctCount_all, (lastCorrect_all _ Hne) in Hst.
  exists st. eexists. split; [exact Hst|].
  apply percent_above_100. destruct questions; [congruence | simpl in *; lia].
Qed.

Lemma quiz_perfect_run_above_100_witness :
  let questions := Questions.getQuizQuestions "linear-equations" in
  questions <> [] /\ (length questions <= 100)%nat /\
  exists st final,
    Quiz.run questions Quiz.initial
             (Spec.answerEvents (map Questions.correctAnswer questions))
    = Some (st, Some final) /\ (101 <= final)%Z.
Proof.
  assert (Hne : Questions.getQuizQuestions "linear-equations" <> [])
    by (vm_compute; discriminate).
  assert (Hlen : (length (Questions.getQuizQuestions "linear-equations") <= 100)%nat)
    by (vm_compute; lia).
  split; [exact Hne|]. split; [exact Hlen|].
  exact (quiz_perfect_run_above_100 (Questions.getQuizQuestions "linear-equations") Hne Hlen).
Defined.

(** ** Progress only grows *)









(** ** The page saves its own lists *)

(** A page operation either changes nothing, or leaves the store with
    exactly the lists the page holds: what [recordQuizResult] or a raw
    [updateProgress] wrote to the two lists beside the page since its mount
    is gone, while the quiz counts and scores they wrote stay. *)
Theorem page_save_overwrites_store (w : Page.World) (now now' : Z) (op : Page.Op) :
  Spec.byPage op = true ->
  op <> Page.Reload ->
  let w' := Page.step w (now, op) in
  w' = w \/
  (Progress.capturedTopics (Progress.current now' (Page.store w'))
     = Page.capturedTopics (Page.page w') /\
   Progress.unlockedTopics (Progress.current now' (Page.store w'))
     = Page.unlockedTopics (Page.page w') /\
   Progress.quizAttempts (Progress.current now' (Page.store w'))
     = Progress.quizAttempts (Progress.current now' (Page.store w)) /\
   Progress.quizScores (Progress.current now' (Page.store w'))
     = Progress.quizScores (Progress.current now' (Page.store w))).
Proof.
  assert (Hsave : forall st,
    Progress.capturedTopics (Progress.current now' (Page.store (Page.rerender now st w)))
      = Page.capturedTopics st /\
    Progress.unlockedTopics (Progress.current now' (Page.store (Page.rerender now st w)))
      = Page.unlockedTopics st /\
    Progress.quizAttempts (Progress.current now' (Page.store (Page.rerender now st w)))
      = Progress.quizAttempts (Progress.current now' (Page.store w)) /\
    Progress.quizScores (Progress.current now' (Page.store (Page.rerender now st w)))
      = Progress.quizScores (Progress.current now' (Page.store w))).
  { intros st. destruct (Page.store w) eqn:E; cbn [Page.rerender Page.store];
      rewrite E; repeat split; reflexivity. }
  destruct op as [topicId score | userQuery | | topicId score passed | updates];
    cbn [Spec.byPage Page.step]; intros Hby Hne; try discriminate Hby;
    [| |now elim Hne].
  - unfold Page.handleLearningComplete.
    destruct (_ && _); [right; apply Hsave | now left].
  - unfold Page.handleQuerySubmit.
    destruct (String.eqb _ _); [now left|].
    destruct (Index.newlyUnlockable _ _ _); [now left | right; apply Hsave].
Qed.

Lemma page_save_overwrites_store_witness :
  let w := Page.step (Page.mount 0 None)
             (1%Z, Page.RecordQuizResult "quadratic-equations" 80 true) in
  let w' := Page.step w (2%Z, Page.QuerySubmit "what is a parabola") in
  Spec.byPage (Page.QuerySubmit "what is a parabola") = true /\
  Progress.capturedTopics (Progress.current 3 (Page.store w)) = ["quadratic-equations"] /\
  Progress.capturedTopics (Progress.current 3 (Page.store w')) = [] /\
  Spec.attemptsOf "quadratic-equations" (Page.store w') = 1%Z.
Proof.
  split; [reflexivity|]. split; [reflexivity|].
  destruct (page_save_overwrites_store
              (Page.step (Page.mount 0 None)
                 (1%Z, Page.RecordQuizResult "quadratic-equations" 80 true))
              2 3 (Page.QuerySubmit "what is a parabola") eq_refl)
    as [Hsame | (Hc & _ & _ & _)].
  - discriminate.
  - vm_compute in Hsame. discriminate Hsame.
  - split; [rewrite Hc; vm_compute; reflexivity | vm_compute; reflexivity].
Defined.

(** ** The quiz score is bounded *)

Lemma percent_mono (k k' n : nat) :
  (k <= k')%nat -> (Spec.percent k n <= Spec.percent k' n)%Z.
Proof.
  intros Hk. unfold Spec.percent, JS.mathRound. apply Qfloor_resp_le.
  apply Qplus_le_l. apply Qmult_le_compat_r; [|discriminate].
  unfold Qdiv. apply Qmult_le_compat_r.
  - rewrite <- Zle_Qle. lia.
  - apply Qinv_le_0_compat. change 0%Q with (inject_Z 0). rewrite <- Zle_Qle. lia.
Qed.

Lemma percent_nonneg (k n : nat) : (0 <= Spec.percent k n)%Z.
Proof.
  unfold Spec.percent, JS.mathRound.
  rewrite <- (Qfloor_Z 0). apply Qfloor_resp_le.
  apply (Qle_trans _ (0 + (1 # 2))); [discriminate|].
  apply Qplus_le_l. apply Qmult_le_0_compat; [|discriminate].
  unfold Qdiv. apply Qmult_le_0_compat.
  - change 0%Q with (inject_Z 0). rewrite <- Zle_Qle. lia.
  - apply Qinv_le_0_compat. change 0%Q with (inject_Z 0). rewrite <- Zle_Qle. lia.
Qed.

(** One event keeps the state consistent, and a score handed to
    [onComplete] counts at most one answer more than there are questions. *)
Lemma step_quizConsistent (questions : list Questions.QuizQuestion) (st st' : Quiz.State)
    (ev : Quiz.Event) (out : option Z) :
  Spec.quizConsistent st ->
  Quiz.step questions st ev = Some (st', out) ->
  Spec.quizConsistent st' /\
  forall final, out = Some final ->
    (0 <= final <= Spec.percent (length questions + 1) (length questions))%Z.
Proof.
  unfold Spec.quizConsistent, Quiz.step, Quiz.render.
  destruct st as [idx sel fb sc]. cbn [Quiz.currentQuestionIndex Quiz.selectedAnswer
    Quiz.showFeedback Quiz.score]. intros Hinv.
  destruct (nth_error questions idx) as [q|] eqn:Hq; [|discriminate].
  destruct ev as [index | | ].
  - unfold Quiz.handleAnswerSelect. cbn [Quiz.showFeedback].
    destruct fb; intros [= <- <-]; (split; [exact Hinv | discriminate]).
  - destruct fb; cbn [Quiz.showFeedback].
    + intros [= <- <-]. split; [exact Hinv | discriminate].
    + unfold Quiz.handleSubmit. cbn [Quiz.selectedAnswer Quiz.isCorrect Quiz.score
        Quiz.currentQuestionIndex].
      destruct sel as [a|]; intros [= <- <-]; (split; [|discriminate]);
        cbn [Quiz.score Quiz.currentQuestionIndex Quiz.showFeedback] in *.
      * destruct (a =? Questions.correctAnswer q)%nat; lia.
      * exact Hinv.
  - destruct fb; cbn [Quiz.showFeedback].
    + unfold Quiz.handleNext. cbn [Quiz.isLastQuestion Quiz.currentQuestionIndex Quiz.score].
      destruct (Z.eqb_spec (Z.of_nat idx) (Z.of_nat (length questions) - 1)) as [Hlast | _].
      * intros [= <- <-]. split; [exact Hinv|]. intros final [= <-].
        unfold Quiz.finalScore. cbn [Quiz.score Quiz.isCorrect].
        fold (Spec.percent
                (sc + if match sel with
                         | Some a => (a =? Questions.correctAnswer q)%nat
                         | None => false
                         end then 1 else 0) (length questions)).
        split; [apply percent_nonneg|]. apply percent_mono.
        destruct (match sel with Some a => _ | None => _ end); lia.
      * intros [= <- <-]. split; [|discriminate].
        cbn [Quiz.score Quiz.currentQuestionIndex Quiz.showFeedback]. lia.
    + intros [= <- <-]. split; [exact Hinv | discriminate].
Qed.

Lemma run_quizConsistent (questions : list Questions.QuizQuestion) (evs : list Quiz.Event)
    (st st' : Quiz.State) (final : Z) :
  Spec.quizConsistent st ->
  Quiz.run questions st evs = Some (st', Some final) ->
  (0 <= final <= Spec.percent (length questions + 1) (length questions))%Z.
Proof.
  revert st. induction evs as [|ev evs IH]; intros st Hinv; simpl; [discriminate|].
  destruct (Quiz.step questions st ev) as [[st1 [f|]]|] eqn:E; [| |discriminate].
  - intros [= <- <-]. now apply (step_quizConsistent _ _ _ _ _ Hinv E).
  - apply IH. now apply (step_quizConsistent _ _ _ _ _ Hinv E).
Qed.

(** Whatever the user clicks, in whatever order, a score that the quiz hands
    to [onComplete] is never negative and never counts more than one answer
    beyond the number of questions: it is at most the rounded percentage of
    n + 1 out of n. *)
Theorem quiz_score_bounded (questions : list Questions.QuizQuestion)
    (evs : list Quiz.Event) (st : Quiz.State) (final : Z) :
  Quiz.run questions Quiz.initial evs = Some (st, Some final) ->
  (0 <= final <= Spec.percent (length questions + 1) (length questions))%Z.
Proof.
  apply run_quizConsistent. unfold Spec.quizConsistent. simpl. lia.
Qed.

Lemma quiz_score_bounded_witness :
  let questions := Questions.getQuizQuestions "linear-equations" in
  let evs := [Quiz.Submit; Quiz.Select 1; Quiz.Select 3; Quiz.Submit; Quiz.Select 0;
              Quiz.Next; Quiz.Next; Quiz.Select 3; Quiz.Submit; Quiz.Submit; Quiz.Next;
              Quiz.Select 0; Quiz.Submit; Quiz.Next]%nat in
  Quiz.run questions Quiz.initial evs
    = Some (Quiz.mkState 2 (Some 0%nat) true 2, Some 100%Z) /\
  (0 <= 100 <= Spec.percent (length questions + 1) (length questions))%Z.
Proof.
  assert (Hrun : Quiz.run (Questions.getQuizQuestions "linear-equations") Quiz.initial
            [Quiz.Submit; Quiz.Select 1; Quiz.Select 3; Quiz.Submit; Quiz.Select 0;
             Quiz.Next; Quiz.Next; Quiz.Select 3; Quiz.Submit; Quiz.Submit; Quiz.Next;
             Quiz.Select 0; Quiz.Submit; Quiz.Next]%nat
            = Some (Quiz.mkState 2 (Some 0%nat) true 2, Some 100%Z))
    by (vm_compute; reflexivity).
  split; [exact Hrun|].
  exact (quiz_score_bounded _ _ _ _ Hrun).
Defined.
